(** * Thomson PDF Generator: the digital signature subsystem

    A shallow embedding of [core/signer.py] (class [PDFSigner]) and the
    properties its specification states about certificate generation,
    persistence, signing and verification.

    The program's own code is translated statement by statement.  The
    libraries it calls ([cryptography], [PyPDF2], [reportlab], [pathlib])
    are an interface, [Lib]: every call that can raise returns a [res].
    The file system, the clock and the random source are explicit in
    [World]. *)

From Stdlib Require Import Strings.Ascii Strings.Byte.
From stdpp Require Import base option list strings gmap fin_maps.

Local Open Scope string_scope.
Local Open Scope list_scope.

(** ** Python values the code handles *)

Definition bytes := list byte.

(** An exception, by the text [str(e)] gives. *)
Definition exn := string.

Inductive res (A : Type) : Type :=
  | Ret (a : A)
  | Raise (e : exn).
Arguments Ret {A} a.
Arguments Raise {A} e.

(** Truth value of an [Optional[str]] or [Optional[bytes]] argument:
    [None] and the empty value are false. *)
Definition truthy_str (s : option string) : bool :=
  match s with
  | Some (String _ _) => true
  | _ => false
  end.

Definition truthy_bytes (b : option bytes) : bool :=
  match b with
  | Some (_ :: _) => true
  | _ => false
  end.

(** [a or b] on an optional string. *)
Definition str_or (a : option string) (b : string) : string :=
  match a with
  | Some (String c s) => String c s
  | _ => b
  end.

(** The slice [s[:n]]. *)
Definition slice_to (n : nat) (s : string) : string := String.substring 0 n s.

(** ** datetime *)

Record DateTime : Type := mkDateTime {
  year : N; month : N; day : N;
  hour : N; minute : N; second : N
}.

Definition digit (n : N) : ascii := ascii_of_N (48 + n mod 10).

Definition pad2 (n : N) : string :=
  String (digit (n / 10)) (String (digit n) "").

Definition pad4 (n : N) : string :=
  String (digit (n / 1000)) (String (digit (n / 100)) (pad2 n)).

(** [dt.strftime('%Y-%m-%d %H:%M:%S')] *)
Definition strftime_iso (dt : DateTime) : string :=
  pad4 (year dt) +:+ "-" +:+ pad2 (month dt) +:+ "-" +:+ pad2 (day dt) +:+ " "
  +:+ pad2 (hour dt) +:+ ":" +:+ pad2 (minute dt) +:+ ":" +:+ pad2 (second dt).

(** [dt.strftime('%Y%m%d%H%M%S')] *)
Definition strftime_compact (dt : DateTime) : string :=
  pad4 (year dt) +:+ pad2 (month dt) +:+ pad2 (day dt)
  +:+ pad2 (hour dt) +:+ pad2 (minute dt) +:+ pad2 (second dt).

Definition is_leap (y : N) : bool :=
  ((y mod 4 =? 0) && negb (y mod 100 =? 0) || (y mod 400 =? 0))%N.

(** [dt.replace(year=y)]: raises [ValueError] when the date does not exist
    in year [y] (29 February) or [y] is outside 1..9999. *)
Definition replace_year (dt : DateTime) (y : N) : res DateTime :=
  if negb ((1 <=? y) && (y <=? 9999))%N then
    Raise ("year " +:+ pad4 y +:+ " is out of range")
  else if ((month dt =? 2) && (day dt =? 29))%N && negb (is_leap y) then
    Raise "day is out of range for month"
  else
    Ret (mkDateTime y (month dt) (day dt) (hour dt) (minute dt) (second dt)).

(** ** base64 *)

Definition b64_alphabet : string :=
  "ABCDEFGHIJKLMNOPQRSTUVWXYZabcdefghijklmnopqrstuvwxyz0123456789+/".

Definition b64_char (n : N) : ascii :=
  match String.get (N.to_nat n) b64_alphabet with
  | Some c => c
  | None => "="%char
  end.

(** [base64.b64encode(bs).decode('utf-8')] *)
Fixpoint b64encode (bs : bytes) : string :=
  match bs with
  | [] => ""
  | [a] =>
      let x := Byte.to_N a in
      String (b64_char (x / 4))
        (String (b64_char (x mod 4 * 16)) "==")
  | [a; b] =>
      let x := Byte.to_N a in
      let y := Byte.to_N b in
      String (b64_char (x / 4))
        (String (b64_char (x mod 4 * 16 + y / 16))
           (String (b64_char (y mod 16 * 4)) "="))
  | a :: b :: c :: rest =>
      let x := Byte.to_N a in
      let y := Byte.to_N b in
      let z := Byte.to_N c in
      String (b64_char (x / 4))
        (String (b64_char (x mod 4 * 16 + y / 16))
           (String (b64_char (y mod 16 * 4 + z / 64))
              (String (b64_char (z mod 64)) (b64encode rest))))
  end.

(** ** The libraries behind the signer *)

(** [cryptography.x509.oid.NameOID], the four the signer uses. *)
Inductive NameOID : Type :=
  | COMMON_NAME
  | COUNTRY_NAME
  | EMAIL_ADDRESS
  | ORGANIZATION_NAME.

Global Instance NameOID_eq_dec : EqDecision NameOID.
Proof. solve_decision. Defined.

(** [serialization.NoEncryption()] and
    [serialization.BestAvailableEncryption(password)]. *)
Inductive Encryption : Type :=
  | NoEncryption
  | BestAvailableEncryption (password : bytes).

(** What the overlay code asks of a [reportlab] canvas, in order. *)
Inductive CanvasOp : Type :=
  | setStrokeColor (color : string)
  | setLineWidth (w : Z)
  | rect (x y w h : Z)
  | setFillColor (color : string)
  | setFont (name : string) (size : Z)
  | drawString (x y : Z) (text : string).

Class Lib : Type := {
  (** opaque library objects *)
  PrivateKey : Type;
  Certificate : Type;
  Page : Type;
  (** [rsa.generate_private_key(public_exponent=65537, key_size=2048)],
      from the entropy it draws *)
  rsa_generate_private_key : N → res PrivateKey;
  (** [x509.NameAttribute(oid, value)] validates the value *)
  x509_NameAttribute : NameOID → string → res (NameOID * string);
  (** the [CertificateBuilder] chain of [generate_self_signed_certificate]
      up to [.sign(key, SHA256)]: subject (= issuer), key, serial number,
      not-valid-before, not-valid-after; the extensions are constants *)
  x509_build_and_sign :
    list (NameOID * string) → PrivateKey → N → DateTime → DateTime →
    res Certificate;
  cert_subject : Certificate → list (NameOID * string);
  cert_not_valid_before_utc : Certificate → DateTime;
  cert_not_valid_after_utc : Certificate → DateTime;
  load_pem_x509_certificate : bytes → res Certificate;
  load_pem_private_key : bytes → option bytes → res PrivateKey;
  (** [certificate.public_bytes(Encoding.PEM)] *)
  cert_public_bytes : Certificate → bytes;
  (** [key.private_bytes(PEM, PKCS8, encryption_algorithm)] *)
  key_private_bytes : PrivateKey → Encryption → res bytes;
  (** [key.sign(content, PSS(MGF1(SHA256), MAX_LENGTH), SHA256)]; the second
      argument is the salt the padding draws *)
  key_sign_pss : PrivateKey → N → bytes → res bytes;
  (** [canvas.Canvas(buffer, pagesize=letter)], the drawing calls, [save()] *)
  canvas_save : list CanvasOp → res bytes;
  (** [PyPDF2.PdfReader(stream)]: the pages and the [metadata] property *)
  PdfReader : bytes → res (list Page * option (gmap string string));
  (** [page.merge_page(other)] *)
  merge_page : Page → Page → res Page;
  (** [PdfWriter] with the pages added and [add_metadata], then [write] *)
  PdfWriter_write : list Page → gmap string string → res bytes;
  (** [Path(p).stem] *)
  path_stem : string → string
}.

(** ** The world outside the process *)

Record World : Type := mkWorld {
  (** the files, by path *)
  fs : gmap string bytes;
  (** paths that cannot be opened for writing *)
  readonly : gset string;
  (** what [datetime.now(timezone.utc)] and [datetime.now()] answer at the
      n-th reading of the clock, and the readings taken so far *)
  clock_utc : nat → DateTime;
  clock_local : nat → DateTime;
  ticks : nat;
  (** what the operating system's random source answers at the n-th draw,
      and the draws taken so far *)
  entropy : nat → N;
  draws : nat
}.

Definition set_fs (f : gmap string bytes) (w : World) : World :=
  mkWorld f (readonly w) (clock_utc w) (clock_local w) (ticks w)
          (entropy w) (draws w).

Definition tick (w : World) : World :=
  mkWorld (fs w) (readonly w) (clock_utc w) (clock_local w) (S (ticks w))
          (entropy w) (draws w).

Definition draw (w : World) : World :=
  mkWorld (fs w) (readonly w) (clock_utc w) (clock_local w) (ticks w)
          (entropy w) (S (draws w)).

(** A value stored in the dictionary [verify_signature] returns. *)
Inductive pyval : Type :=
  | VBool (b : bool)
  | VStr (s : string)
  | VNone.

Global Instance pyval_eq_dec : EqDecision pyval.
Proof. solve_decision. Defined.

Global Instance res_ret : MRet res := λ A a, Ret a.
Global Instance res_bind : MBind res := λ A B f r,
  match r with
  | Ret a => f a
  | Raise e => Raise e
  end.

Section Signer.
Context {L : Lib}.

(** ** class PDFSigner *)

(** The instance attributes [__init__] creates. *)
Record PDFSigner : Type := mkPDFSigner {
  private_key : option PrivateKey;
  certificate : option Certificate;
  signature_info : gmap string string
}.

(** [PDFSigner()] *)
Definition __init__ : PDFSigner := mkPDFSigner None None ∅.

(** What a method runs on: its [self] and the world. *)
Record Mem : Type := mkMem {
  self : PDFSigner;
  world : World
}.

(** A method body: it returns or raises, and either way leaves the memory
    as its assignments made it. *)
Definition M (A : Type) : Type := Mem → res A * Mem.

#[export] Instance M_ret : MRet M := λ A a m, (Ret a, m).
#[export] Instance M_bind : MBind M := λ A B f c m,
  match c m with
  | (Ret a, m') => f a m'
  | (Raise e, m') => (Raise e, m')
  end.

Definition lift {A} (r : res A) : M A := λ m, (r, m).

Definition raise {A} (e : exn) : M A := λ m, (Raise e, m).

(** [try: body except Exception as e: handler] *)
Definition try_except {A} (body : M A) (handler : exn → M A) : M A := λ m,
  match body m with
  | (Ret a, m') => (Ret a, m')
  | (Raise e, m') => handler e m'
  end.

Definition get_self : M PDFSigner := λ m, (Ret (self m), m).

Definition set_private_key (k : PrivateKey) : M unit := λ m,
  (Ret (), mkMem (mkPDFSigner (Some k) (certificate (self m))
                              (signature_info (self m))) (world m)).

Definition set_certificate (c : Certificate) : M unit := λ m,
  (Ret (), mkMem (mkPDFSigner (private_key (self m)) (Some c)
                              (signature_info (self m))) (world m)).

Definition set_signature_info (i : gmap string string) : M unit := λ m,
  (Ret (), mkMem (mkPDFSigner (private_key (self m)) (certificate (self m)) i)
                 (world m)).

(** [datetime.now(timezone.utc)] *)
Definition now_utc : M DateTime := λ m,
  (Ret (clock_utc (world m) (ticks (world m))),
   mkMem (self m) (tick (world m))).

(** [datetime.now()] *)
Definition now_local : M DateTime := λ m,
  (Ret (clock_local (world m) (ticks (world m))),
   mkMem (self m) (tick (world m))).

(** One draw from the random source. *)
Definition os_urandom : M N := λ m,
  (Ret (entropy (world m) (draws (world m))), mkMem (self m) (draw (world m))).

(** [os.path.exists(path)] *)
Definition path_exists (path : string) : M bool := λ m,
  (Ret (bool_decide (is_Some (fs (world m) !! path))), m).

(** [with open(path, 'rb') as f: f.read()] *)
Definition open_rb (path : string) : M bytes := λ m,
  match fs (world m) !! path with
  | Some data => (Ret data, m)
  | None => (Raise ("[Errno 2] No such file or directory: " +:+ path), m)
  end.

(** [open(path, 'wb')]: the file exists and is empty from here on. *)
Definition open_wb (path : string) : M unit := λ m,
  if bool_decide (path ∈ readonly (world m)) then
    (Raise ("[Errno 13] Permission denied: " +:+ path), m)
  else
    (Ret (), mkMem (self m) (set_fs (<[path := []]> (fs (world m))) (world m))).

(** [f.write(data)] on a file opened by [open_wb]. *)
Definition file_write (path : string) (data : bytes) : M unit := λ m,
  (Ret (), mkMem (self m) (set_fs (<[path := data]> (fs (world m))) (world m))).

(** *** generate_self_signed_certificate *)

Definition generate_self_signed_certificate
    (common_name : string) (email organization : option string)
    (country : string) : M bool :=
  try_except
    (seed ← os_urandom;
     key ← lift (rsa_generate_private_key seed);
     set_private_key key;;
     a_cn ← lift (x509_NameAttribute COMMON_NAME common_name);
     a_c ← lift (x509_NameAttribute COUNTRY_NAME country);
     a_email ←
       (if truthy_str email
        then a ← lift (x509_NameAttribute EMAIL_ADDRESS (default "" email));
             mret [a]
        else mret []);
     a_org ←
       (if truthy_str organization
        then a ← lift (x509_NameAttribute ORGANIZATION_NAME
                         (default "" organization));
             mret [a]
        else mret []);
     let subject := ([a_cn; a_c] ++ a_email ++ a_org)%list in
     serial ← os_urandom;
     t_before ← now_utc;
     t_base ← now_utc;
     t_year ← now_utc;
     t_after ← lift (replace_year t_base (year t_year + 1));
     cert ← lift (x509_build_and_sign subject key serial t_before t_after);
     set_certificate cert;;
     t_created ← now_utc;
     set_signature_info
       (<["valid_until" := strftime_iso (cert_not_valid_after_utc cert)]>
        (<["created" := strftime_iso t_created]>
        (<["country" := country]>
        (<["organization" := str_or organization "Not specified"]>
        (<["email" := str_or email "Not specified"]>
        (<["common_name" := common_name]> ∅))))));;
     mret true)
    (λ e, mret false).

(** *** _get_name_attribute *)

Fixpoint _get_name_attribute (name : list (NameOID * string))
    (attribute_oid : NameOID) : string :=
  match name with
  | [] => "Not specified"
  | attribute :: rest =>
      if decide (attribute.1 = attribute_oid) then attribute.2
      else _get_name_attribute rest attribute_oid
  end.

(** *** load_certificate_from_file *)

Definition load_certificate_from_file
    (cert_path key_path : string) (password : option bytes) : M bool :=
  try_except
    (cert_data ← open_rb cert_path;
     cert ← lift (load_pem_x509_certificate cert_data);
     set_certificate cert;;
     key_data ← open_rb key_path;
     key ← lift (load_pem_private_key key_data password);
     set_private_key key;;
     let subject := cert_subject cert in
     set_signature_info
       (<["valid_until" := strftime_iso (cert_not_valid_after_utc cert)]>
        (<["valid_from" := strftime_iso (cert_not_valid_before_utc cert)]>
        (<["country" := _get_name_attribute subject COUNTRY_NAME]>
        (<["organization" := _get_name_attribute subject ORGANIZATION_NAME]>
        (<["email" := _get_name_attribute subject EMAIL_ADDRESS]>
        (<["common_name" := _get_name_attribute subject COMMON_NAME]> ∅))))));;
     mret true)
    (λ e, mret false).

(** *** save_certificate *)

Definition save_certificate
    (cert_path key_path : string) (password : option bytes) : M bool :=
  try_except
    (me ← get_self;
     match certificate me, private_key me with
     | Some cert, Some key =>
         open_wb cert_path;;
         file_write cert_path (cert_public_bytes cert);;
         let encryption_algorithm :=
           if truthy_bytes password
           then BestAvailableEncryption (default [] password)
           else NoEncryption in
         open_wb key_path;;
         key_data ← lift (key_private_bytes key encryption_algorithm);
         file_write key_path key_data;;
         mret true
     | _, _ => mret false
     end)
    (λ e, mret false).

(** *** _create_signature_overlay *)

Definition _create_signature_overlay (me : PDFSigner)
    (signature_text timestamp : string) (position : option (Z * Z))
    : res bytes :=
  let '(x, y) := match position with
                 | None => (400, 50)%Z
                 | Some p => p
                 end in
  canvas_save
    [ setStrokeColor "blue";
      setLineWidth 2;
      rect (x - 10) (y - 10) 200 80;
      setFillColor "blue";
      setFont "Helvetica-Bold" 10;
      drawString x (y + 50) "DIGITALLY SIGNED";
      setFont "Helvetica" 9;
      drawString x (y + 35) (slice_to 30 signature_text);
      setFont "Helvetica" 8;
      drawString x (y + 20) ("Date: " +:+ timestamp);
      drawString x (y + 10)
        ("By: " +:+ slice_to 25
           (default "Unknown" (signature_info me !! "common_name")));
      drawString x y
        ("Org: " +:+ slice_to 25
           (default "N/A" (signature_info me !! "organization"))) ].

(** *** _create_document_hash *)

Definition _create_document_hash (pdf_path : string) : M bytes :=
  try_except
    (content ← open_rb pdf_path;
     me ← get_self;
     key ← match private_key me with
           | Some k => mret k
           | None => raise "'NoneType' object has no attribute 'sign'"
           end;
     salt ← os_urandom;
     lift (key_sign_pss key salt content))
    (λ e, mret []).

(** *** sign_pdf *)

(** The loop [for i, page in enumerate(pdf_reader.pages)]: [n] is
    [len(pdf_reader.pages)], [writer] the pages added so far. *)
Fixpoint add_all_pages (n i : nat) (pages : list Page)
    (signature_buffer : bytes) (writer : list Page) : res (list Page) :=
  match pages with
  | [] => Ret writer
  | page :: rest =>
      if decide (i = n - 1) then
        signature_pdf ← PdfReader signature_buffer;
        signature_page ← match signature_pdf.1 !! 0%nat with
                         | Some p => Ret p
                         | None => Raise "sequence index out of range"
                         end;
        merged ← merge_page page signature_page;
        add_all_pages n (S i) rest signature_buffer (writer ++ [merged])%list
      else
        add_all_pages n (S i) rest signature_buffer (writer ++ [page])%list
  end.

(** The dictionary handed to [pdf_writer.add_metadata]. *)
Definition sign_metadata (me : PDFSigner) (pdf_path : string)
    (mod_date : DateTime) (document_hash : bytes) : gmap string string :=
  <["/Signature" := b64encode document_hash]>
  (<["/ModDate" := "D:" +:+ strftime_compact mod_date]>
  (<["/Producer" := "Thomson PDF Generator Digital Signature"]>
  (<["/Creator" := "Thomson PDF Generator"]>
  (<["/Subject" := "Digitally Signed Document"]>
  (<["/Author" := default "Unknown" (signature_info me !! "common_name")]>
  (<["/Title" := "Signed PDF - " +:+ path_stem pdf_path]> ∅)))))).

Definition sign_pdf (pdf_path : string)
    (output_path signature_text : option string)
    (position : option (Z * Z)) : M bool :=
  try_except
    (me ← get_self;
     (if bool_decide (private_key me = None ∨ certificate me = None)
      then raise "No certificate loaded. Generate or load a certificate first."
      else mret ());;
     found ← path_exists pdf_path;
     (if negb found
      then raise ("PDF file not found: " +:+ pdf_path)
      else mret ());;
     let output_path := default pdf_path output_path in
     now ← now_local;
     let timestamp := strftime_iso now in
     let signature_text :=
       default ("Digitally signed by " +:+
                default "Unknown" (signature_info me !! "common_name"))
               signature_text in
     signature_buffer ←
       lift (_create_signature_overlay me signature_text timestamp position);
     file ← open_rb pdf_path;
     pdf_reader ← lift (PdfReader file);
     pdf_writer ←
       lift (add_all_pages (length pdf_reader.1) 0 pdf_reader.1
                           signature_buffer []);
     mod_date ← now_local;
     document_hash ← _create_document_hash pdf_path;
     let metadata := sign_metadata me pdf_path mod_date document_hash in
     open_wb output_path;;
     output ← lift (PdfWriter_write pdf_writer metadata);
     file_write output_path output;;
     mret true)
    (λ e, mret false).

(** *** verify_signature *)

(** The body of the [try]: the dictionary as the assignments left it, and
    the exception when one escaped. *)
Definition verify_try (pdf_path : string) (w : World)
    (result : gmap string pyval) : gmap string pyval * option exn :=
  match fs w !! pdf_path with
  | None => (<["error" := VStr "PDF file not found"]> result, None)
  | Some file =>
      match PdfReader file with
      | Raise e => (result, Some e)
      | Ret pdf_reader =>
          match pdf_reader.2 with
          | Some metadata =>
              if bool_decide (metadata = ∅) then
                (<["error" := VStr "No metadata found in PDF"]> result, None)
              else if bool_decide (is_Some (metadata !! "/Signature")) then
                let result := <["is_signed" := VBool true]> result in
                let result :=
                  <["signer" :=
                      VStr (default "Unknown" (metadata !! "/Author"))]>
                    result in
                let result :=
                  <["signature_date" :=
                      VStr (default "Unknown" (metadata !! "/ModDate"))]>
                    result in
                if bool_decide (metadata !! "/Producer" =
                                Some "Thomson PDF Generator Digital Signature")
                then (<["is_valid" := VBool true]> result, None)
                else (<["error" := VStr "Signature format not recognized"]>
                        result, None)
              else
                (<["error" := VStr "No digital signature found"]> result, None)
          | None =>
              (<["error" := VStr "No metadata found in PDF"]> result, None)
          end
      end
  end.

Definition verify_signature (pdf_path : string) : M (gmap string pyval) :=
  λ m,
  let result : gmap string pyval :=
    <["error" := VNone]>
    (<["signature_date" := VStr "Unknown"]>
    (<["signer" := VStr "Unknown"]>
    (<["is_valid" := VBool false]>
    (<["is_signed" := VBool false]> ∅)))) in
  match verify_try pdf_path (world m) result with
  | (result, None) => (Ret result, m)
  | (result, Some e) =>
      (Ret (<["error" := VStr ("Error verifying signature: " +:+ e)]> result),
       m)
  end.

(** *** get_certificate_info, is_certificate_loaded *)

Definition get_certificate_info (me : PDFSigner) : gmap string string :=
  match certificate me with
  | None => ∅
  | Some _ => signature_info me
  end.

Definition is_certificate_loaded (me : PDFSigner) : bool :=
  bool_decide (certificate me ≠ None ∧ private_key me ≠ None).

(** ** What the properties speak about *)

(** The metadata of the document at a path, as [PdfReader] gives it; [None]
    when there is no such file, it is no PDF, or it has no metadata. *)
Definition read_metadata (w : World) (pdf_path : string)
    : option (gmap string string) :=
  match fs w !! pdf_path with
  | Some file =>
      match PdfReader file with
      | Ret pdf_reader => pdf_reader.2
      | Raise _ => None
      end
  | None => None
  end.

(** One field of that metadata. *)
Definition read_field (w : World) (pdf_path field : string) : option string :=
  read_metadata w pdf_path ≫= (λ metadata, metadata !! field).


(** The SignatureInfo is the one [load_certificate_from_file] derives from
    the certificate held. *)
Definition info_matches_certificate (me : PDFSigner) : Prop :=
  ∃ cert, certificate me = Some cert ∧
    signature_info me !! "common_name" =
      Some (_get_name_attribute (cert_subject cert) COMMON_NAME) ∧
    signature_info me !! "email" =
      Some (_get_name_attribute (cert_subject cert) EMAIL_ADDRESS) ∧
    signature_info me !! "organization" =
      Some (_get_name_attribute (cert_subject cert) ORGANIZATION_NAME) ∧
    signature_info me !! "country" =
      Some (_get_name_attribute (cert_subject cert) COUNTRY_NAME).

(** The same date and time of day, one year on. *)
Definition one_year_later (t : DateTime) : DateTime :=
  mkDateTime (year t + 1) (month t) (day t) (hour t) (minute t) (second t).

(** The subject [generate_self_signed_certificate] builds. *)
Definition generated_subject (common_name : string)
    (email organization : option string) (country : string)
    : list (NameOID * string) :=
  [(COMMON_NAME, common_name); (COUNTRY_NAME, country)]
  ++ (if truthy_str email then [(EMAIL_ADDRESS, default "" email)] else [])
  ++ (if truthy_str organization
      then [(ORGANIZATION_NAME, default "" organization)] else []).

(** What [_create_document_hash] hands back for the outcome of [key.sign]. *)
Definition hash_or_empty (r : res bytes) : bytes :=
  match r with
  | Ret signature => signature
  | Raise _ => []
  end.

(** The overlay page of a [sign_pdf] call: the first page of the document
    [_create_signature_overlay] renders. *)
Definition overlay_page (m : Mem) (signature_text : option string)
    (position : option (Z * Z)) (overlay : Page) : Prop :=
  ∃ signature_buffer signature_pdf,
    _create_signature_overlay (self m)
      (default ("Digitally signed by " +:+
                default "Unknown" (signature_info (self m) !! "common_name"))
               signature_text)
      (strftime_iso (clock_local (world m) (ticks (world m)))) position
      = Ret signature_buffer ∧
    PdfReader signature_buffer = Ret signature_pdf ∧
    signature_pdf.1 !! 0%nat = Some overlay.

(** The world a successful [sign_pdf] leaves: the output file written, two
    readings of the clock and one draw taken. *)
Definition world_signed (w : World) (output_path : string) (output : bytes)
    : World :=
  mkWorld (<[output_path := output]> (<[output_path := []]> (fs w)))
          (readonly w) (clock_utc w) (clock_local w) (S (S (ticks w)))
          (entropy w) (S (draws w)).

(** The steps of [sign_pdf] that have to go well for it to return [True]:
    key and certificate held, the source read and parsed into [pages], the
    overlay rendered and the pages added ([pdf_writer]), the output path
    writable and the document written ([output]). *)
Definition sign_steps (m : Mem) (pdf_path : string)
    (output_path signature_text : option string) (position : option (Z * Z))
    (key : PrivateKey) (file : bytes) (pages : list Page)
    (pdf_writer : list Page) (output : bytes) : Prop :=
  let w := world m in
  private_key (self m) = Some key ∧
  certificate (self m) ≠ None ∧
  fs w !! pdf_path = Some file ∧
  (∃ info, PdfReader file = Ret (pages, info)) ∧
  (∃ signature_buffer,
     (_create_signature_overlay (self m)
        (default ("Digitally signed by " +:+
                  default "Unknown" (signature_info (self m) !! "common_name"))
                 signature_text)
        (strftime_iso (clock_local w (ticks w))) position
        = Ret signature_buffer) ∧
     add_all_pages (length pages) 0 pages signature_buffer []
       = Ret pdf_writer) ∧
  (default pdf_path output_path ∉ readonly w) ∧
  PdfWriter_write pdf_writer
    (sign_metadata (self m) pdf_path (clock_local w (S (ticks w)))
       (hash_or_empty (key_sign_pss key (entropy w (draws w)) file)))
    = Ret output.

End Signer.

Arguments PDFSigner : clear implicits.
Arguments Mem : clear implicits.

(** ** What the signer relies on from its libraries *)

Definition encryption_of (password : option bytes) : Encryption :=
  if truthy_bytes password
  then BestAvailableEncryption (default [] password)
  else NoEncryption.

Class LibLaws (L : Lib) : Prop := {
  (** a written document reads back with the pages and metadata it got *)
  pdf_write_read : ∀ pages metadata out,
    PdfWriter_write pages metadata = Ret out →
    PdfReader out = Ret (pages, Some metadata);
  (** PEM round trips *)
  cert_pem_load : ∀ cert,
    load_pem_x509_certificate (cert_public_bytes cert) = Ret cert;
  key_pem_load_plain : ∀ key out,
    key_private_bytes key NoEncryption = Ret out →
    load_pem_private_key out None = Ret key;
  key_pem_load_encrypted : ∀ key password out,
    password ≠ [] →
    key_private_bytes key (BestAvailableEncryption password) = Ret out →
    load_pem_private_key out (Some password) = Ret key;
  (** an accepted name attribute carries the value it was given *)
  name_attribute_ok : ∀ oid value a,
    x509_NameAttribute oid value = Ret a → a = (oid, value);
  (** a built certificate carries the subject and validity it was given *)
  build_subject : ∀ subject key serial t_before t_after cert,
    x509_build_and_sign subject key serial t_before t_after = Ret cert →
    cert_subject cert = subject;
  build_not_valid_before : ∀ subject key serial t_before t_after cert,
    x509_build_and_sign subject key serial t_before t_after = Ret cert →
    cert_not_valid_before_utc cert = t_before;
  build_not_valid_after : ∀ subject key serial t_before t_after cert,
    x509_build_and_sign subject key serial t_before t_after = Ret cert →
    cert_not_valid_after_utc cert = t_after
}.

(** ** A reference library

    An executable instance of [Lib] that satisfies [LibLaws]: keys and
    certificates are plain records, PEM and PDF files are a one-byte header
    followed by the bits of the record's code, and a PSS signature depends
    on the key, the salt and the content, as RSASSA-PSS does (the salt is
    part of the encoded message and recovered on verification). *)

Module RefLib.

Fixpoint pos_to_bytes (p : positive) : bytes :=
  match p with
  | xH => []
  | xO q => x00 :: pos_to_bytes q
  | xI q => x01 :: pos_to_bytes q
  end.

Fixpoint bytes_to_pos (b : bytes) : option positive :=
  match b with
  | [] => Some xH
  | x00 :: r => xO <$> bytes_to_pos r
  | x01 :: r => xI <$> bytes_to_pos r
  | _ => None
  end.

#[export] Instance byte_eq_dec : EqDecision byte := Byte.byte_eq_dec.
#[export] Instance byte_countable : Countable byte :=
  inj_countable Byte.to_N Byte.of_N Byte.of_to_N.

#[export] Instance DateTime_eq_dec : EqDecision DateTime.
Proof. solve_decision. Defined.

Definition DateTime_to_tuple (d : DateTime) : N * N * N * N * N * N :=
  (year d, month d, day d, hour d, minute d, second d).

Definition DateTime_of_tuple (t : N * N * N * N * N * N) : DateTime :=
  let '(y, mo, d, h, mi, s) := t in mkDateTime y mo d h mi s.

#[export] Instance DateTime_countable : Countable DateTime :=
  inj_countable' DateTime_to_tuple DateTime_of_tuple
    (λ d, match d with mkDateTime _ _ _ _ _ _ => eq_refl end).

Definition NameOID_to_nat (o : NameOID) : nat :=
  match o with
  | COMMON_NAME => 0
  | COUNTRY_NAME => 1
  | EMAIL_ADDRESS => 2
  | ORGANIZATION_NAME => 3
  end.

Definition NameOID_of_nat (n : nat) : NameOID :=
  match n with
  | 0 => COMMON_NAME
  | 1 => COUNTRY_NAME
  | 2 => EMAIL_ADDRESS
  | _ => ORGANIZATION_NAME
  end.

#[export] Instance NameOID_countable : Countable NameOID :=
  inj_countable' NameOID_to_nat NameOID_of_nat
    (λ o, match o with
          | COMMON_NAME | COUNTRY_NAME | EMAIL_ADDRESS | ORGANIZATION_NAME =>
              eq_refl
          end).

(** A file: a header byte, then the record. *)
Definition ser `{Countable A} (header : byte) (a : A) : bytes :=
  header :: pos_to_bytes (encode a).

Definition deser `{Countable A} (header : byte) (b : bytes) : option A :=
  match b with
  | h :: r => if decide (h = header) then bytes_to_pos r ≫= decode else None
  | [] => None
  end.

Definition RefKey : Type := bool * N.

Record RefCert : Type := mkRefCert {
  rc_subject : list (NameOID * string);
  rc_serial : N;
  rc_public_key : N;
  rc_not_before : DateTime;
  rc_not_after : DateTime
}.

#[export] Instance RefCert_eq_dec : EqDecision RefCert.
Proof. solve_decision. Defined.

Definition RefCert_to_tuple (c : RefCert)
    : list (NameOID * string) * N * N * DateTime * DateTime :=
  (rc_subject c, rc_serial c, rc_public_key c, rc_not_before c, rc_not_after c).

Definition RefCert_of_tuple
    (t : list (NameOID * string) * N * N * DateTime * DateTime) : RefCert :=
  let '(s, n, k, b, a) := t in mkRefCert s n k b a.

#[export] Instance RefCert_countable : Countable RefCert :=
  inj_countable' RefCert_to_tuple RefCert_of_tuple
    (λ c, match c with mkRefCert _ _ _ _ _ => eq_refl end).

Definition name_attribute (oid : NameOID) (value : string)
    : res (NameOID * string) :=
  if decide (value = "") then Raise "Value cannot be an empty string"
  else if decide (oid = COUNTRY_NAME ∧ String.length value ≠ 2%nat)
  then Raise "Country name must be a 2 character country code"
  else Ret (oid, value).

Definition load_certificate (data : bytes) : res RefCert :=
  match deser "C"%byte data with
  | Some c => Ret c
  | None => Raise "Unable to load PEM file."
  end.

Definition private_bytes (key : RefKey) (enc : Encryption) : res bytes :=
  Ret (ser "K"%byte
         (key, match enc with
               | NoEncryption => None
               | BestAvailableEncryption pw => Some pw
               end)).

Definition load_private_key (data : bytes) (password : option bytes)
    : res RefKey :=
  match deser "K"%byte data with
  | Some (key, None) =>
      match password with
      | None => Ret key
      | Some _ => Raise "Password was given but private key is not encrypted."
      end
  | Some (key, Some pw) =>
      if decide (password = Some pw) then Ret key
      else Raise "Bad decrypt. Incorrect password?"
  | None => Raise "Could not deserialize key data."
  end.

Definition byte_of_N (n : N) : byte := default x00 (Byte.of_N (n mod 256)).

(** A one-byte digest: the sum of the bytes. *)
Definition digest (content : bytes) : N :=
  foldr (λ b acc, (Byte.to_N b + acc) mod 256)%N 0%N content.

(** Only an RSA key (first component [true]) signs with PSS padding; the
    signature is made of the key, the salt and the digest of the content. *)
Definition sign_pss (key : RefKey) (salt : N) (content : bytes) : res bytes :=
  if key.1
  then Ret [byte_of_N key.2; byte_of_N salt; byte_of_N (digest content)]
  else Raise "sign() takes 3 positional arguments but 4 were given".

(** A page is the text drawn on it. *)
Definition RefPage : Type := list string.

Definition drawn_text (op : CanvasOp) : list string :=
  match op with
  | drawString _ _ text => [text]
  | _ => []
  end.

Definition write_pdf (pages : list RefPage) (metadata : gmap string string)
    : res bytes :=
  Ret (ser "%"%byte (pages, Some (map_to_list metadata))).

Definition read_pdf (data : bytes)
    : res (list RefPage * option (gmap string string)) :=
  match deser "%"%byte data with
  | Some (pages, info) =>
      Ret (pages, (list_to_map : list (string * string) → gmap string string)
                    <$> info)
  | None => Raise "EOF marker not found"
  end.

Definition save_canvas (ops : list CanvasOp) : res bytes :=
  Ret (ser "%"%byte
         ([ops ≫= drawn_text], @None (list (string * string)))).

#[export] Instance ref_lib : Lib := {|
  PrivateKey := RefKey;
  Certificate := RefCert;
  Page := RefPage;
  rsa_generate_private_key := λ seed, Ret (true, seed);
  x509_NameAttribute := name_attribute;
  x509_build_and_sign := λ subject key serial t_before t_after,
    Ret (mkRefCert subject serial key.2 t_before t_after);
  cert_subject := rc_subject;
  cert_not_valid_before_utc := rc_not_before;
  cert_not_valid_after_utc := rc_not_after;
  load_pem_x509_certificate := load_certificate;
  load_pem_private_key := load_private_key;
  cert_public_bytes := ser "C"%byte;
  key_private_bytes := private_bytes;
  key_sign_pss := sign_pss;
  canvas_save := save_canvas;
  PdfReader := read_pdf;
  merge_page := λ page other, Ret (page ++ other)%list;
  PdfWriter_write := write_pdf;
  path_stem := λ p, p
|}.

End RefLib.

(** ** Concrete runs on the reference library *)

Module Scenario.
Import RefLib.

Definition noon : DateTime := mkDateTime 2024 1 1 12 0 0.

(** A clock that stands still. *)
Definition still_clock : nat → DateTime := λ _, noon.

(** A clock that passes a second boundary after its third reading. *)
Definition ticking_clock : nat → DateTime := λ n,
  if decide (n < 3)%nat then noon else mkDateTime 2024 1 1 12 0 1.

(** A three-page document. *)
Definition three_pages : bytes :=
  ser "%"%byte
    ([["page 1"]; ["page 2"]; ["page 3"]], Some [("/Title", "Report")]).

Definition bob_cert : RefCert :=
  mkRefCert [(COMMON_NAME, "Bob"); (COUNTRY_NAME, "DE")] 7 9
            noon (mkDateTime 2025 1 1 12 0 0).

Definition secret : bytes := ["s"%byte; "3"%byte; "c"%byte].

(** The files on disk: the document, Bob's certificate and Bob's private
    key, encrypted with [secret]. *)
Definition disk : gmap string bytes :=
  <["bob.key" := ser "K"%byte ((true, 9%N), Some secret)]>
  (<["bob.crt" := ser "C"%byte bob_cert]>
  (<["in.pdf" := three_pages]> ∅)).

Definition world_at (clock : nat → DateTime) : World :=
  mkWorld disk ∅ clock clock 0 N.of_nat 0.

(** A new signer, nothing loaded. *)
Definition fresh : Mem ref_lib := mkMem __init__ (world_at still_clock).

(** After [generate_self_signed_certificate("Alice", "a@x.com")]. *)
Definition alice : Mem ref_lib :=
  (generate_self_signed_certificate "Alice" (Some "a@x.com") None "US"
     fresh).2.



(** Alice signing the document twice. *)
Definition signed_once : Mem ref_lib :=
  (sign_pdf "in.pdf" (Some "out1.pdf") None None alice).2.


(** A signer holding Bob's certificate and a key that is not an RSA key
    (as [load_pem_private_key] returns for an elliptic-curve key file). *)
Definition bob_with_ec_key : Mem ref_lib :=
  mkMem (mkPDFSigner (Some (false, 9%N)) (Some bob_cert)
                     (<["common_name" := "Bob"]> ∅))
        (world_at still_clock).

(** A new signer under the ticking clock. *)
Definition ticking : Mem ref_lib := mkMem __init__ (world_at ticking_clock).

(** The pages and the file [bob_with_ec_key] writes when signing the
    document. *)
Definition signed_pages : list RefPage :=
  [["page 1"]; ["page 2"];
   ["page 3"; "DIGITALLY SIGNED"; "Digitally signed by Bob";
    "Date: 2024-01-01 12:00:00"; "By: Bob"; "Org: N/A"]].

Definition signed_output : bytes :=
  ser "%"%byte
    (signed_pages,
     Some (map_to_list
             (sign_metadata (self bob_with_ec_key) "in.pdf" noon []))).

End Scenario.

(** ** Callers and sessions *)

Section Session.
Context {L : Lib}.

(** [test_signer] of [tests/test_core.py]: a new signer, one certificate,
    and the check that it is loaded. *)
Definition test_signer (w : World) : res bool * World :=
  let signer := mkMem __init__ w in
  match generate_self_signed_certificate "Test User"
          (Some "test@example.com") (Some "Test Org") "US" signer with
  | (Ret true, signer) =>
      let cert_info := get_certificate_info (self signer) in
      if is_certificate_loaded (self signer)
      then (Ret true, world signer)
      else (Ret false, world signer)
  | (Ret false, signer) => (Ret false, world signer)
  | (Raise e, signer) => (Raise e, world signer)
  end.

(** One call of a public method of [PDFSigner]. *)
Inductive Call : Type :=
  | CallGenerate (common_name : string) (email organization : option string)
                 (country : string)
  | CallLoad (cert_path key_path : string) (password : option bytes)
  | CallSave (cert_path key_path : string) (password : option bytes)
  | CallSign (pdf_path : string) (output_path signature_text : option string)
             (position : option (Z * Z))
  | CallVerify (pdf_path : string).

(** The memory after a call, whatever it returned. *)
Definition after_call (m : Mem L) (c : Call) : Mem L :=
  match c with
  | CallGenerate common_name email organization country =>
      (generate_self_signed_certificate common_name email organization
         country m).2
  | CallLoad cert_path key_path password =>
      (load_certificate_from_file cert_path key_path password m).2
  | CallSave cert_path key_path password =>
      (save_certificate cert_path key_path password m).2
  | CallSign pdf_path output_path signature_text position =>
      (sign_pdf pdf_path output_path signature_text position m).2
  | CallVerify pdf_path => (verify_signature pdf_path m).2
  end.

(** A session: a new signer and the calls made on it, in order. *)
Definition session (w : World) (calls : list Call) : Mem L :=
  foldl after_call (mkMem __init__ w) calls.

(** What a session keeps: a SignatureInfo is held only together with a
    certificate and a private key. *)
Definition info_has_material (me : PDFSigner L) : Prop :=
  signature_info me = ∅ ∨ (certificate me ≠ None ∧ private_key me ≠ None).

End Session.

(** ** More concrete cases on the reference library *)

Module Cases.
Import RefLib Scenario.

(** A new signer on 29 February 2024. *)
Definition leap_day : Mem ref_lib :=
  mkMem __init__ (world_at (λ _, mkDateTime 2024 2 29 12 0 0)).

(** A one-page document with a signature field and a foreign producer. *)
Definition foreign_metadata : gmap string string :=
  <["/Author" := "Mallory"]>
  (<["/Producer" := "Some Other Tool"]>
  (<["/Signature" := "AAAA"]> ∅)).

Definition foreign : bytes :=
  ser "%"%byte ([["page"]], Some (map_to_list foreign_metadata)).

(** A document without pages. *)
Definition no_pages : bytes :=
  ser "%"%byte (@nil RefPage, @None (list (string * string))).

(** A text file. *)
Definition notes : bytes := ["h"%byte; "i"%byte].

(** Alice, with those two files on disk and one path that cannot be
    written. *)
Definition alice_at_desk : Mem ref_lib :=
  mkMem (self alice)
    (mkWorld (<["empty.pdf" := no_pages]>
              (<["notes.txt" := notes]> (<["foreign.pdf" := foreign]> disk)))
             {["locked.key"]} still_clock still_clock 0 N.of_nat 0).

End Cases.

(** * Proofs *)

(** ** The reference library satisfies the laws *)

Lemma bytes_to_pos_to_bytes (p : positive) :
  RefLib.bytes_to_pos (RefLib.pos_to_bytes p) = Some p.
Proof. induction p as [q IH|q IH|]; simpl; by rewrite ?IH. Qed.

Lemma deser_ser `{Countable A} (header : byte) (a : A) :
  RefLib.deser header (RefLib.ser header a) = Some a.
Proof.
  unfold RefLib.deser, RefLib.ser.
  rewrite decide_True by done.
  rewrite bytes_to_pos_to_bytes. simpl. apply decode_encode.
Qed.

#[global] Instance ref_laws : LibLaws RefLib.ref_lib.
Proof.
  split; simpl.
  - intros pages metadata out [= <-]. unfold RefLib.read_pdf.
    rewrite deser_ser. simpl. by rewrite list_to_map_to_list.
  - intros cert. unfold RefLib.load_certificate. by rewrite deser_ser.
  - intros key out [= <-]. unfold RefLib.load_private_key.
    by rewrite deser_ser.
  - intros key password out Hne [= <-]. unfold RefLib.load_private_key.
    rewrite deser_ser. by rewrite decide_True.
  - intros oid value a. unfold RefLib.name_attribute.
    repeat case_decide; congruence.
  - by intros subject key serial t_before t_after cert [= <-].
  - by intros subject key serial t_before t_after cert [= <-].
  - by intros subject key serial t_before t_after cert [= <-].
Qed.

(** ** The signer, over any library *)

Section Properties.
Context {L : Lib}.

Implicit Types (m : Mem L) (me : PDFSigner L) (w : World).

(** Unfold the statements of a method body down to the memory they act on. *)
Ltac run_method :=
  unfold try_except, mbind, M_bind, mret, M_ret, lift, raise, get_self,
    set_private_key, set_certificate, set_signature_info, now_utc,
    now_local, os_urandom, path_exists, open_rb, open_wb, file_write;
  simpl.


(** What [verify_signature] answers, by the file's metadata. *)
Lemma verify_signature_unsigned m pdf_path :
  (∀ metadata, read_metadata (world m) pdf_path = Some metadata →
               metadata !! "/Signature" = None) →
  ∃ result, verify_signature pdf_path m = (Ret result, m) ∧
    result !! "is_signed" = Some (VBool false) ∧
    result !! "is_valid" = Some (VBool false) ∧
    (∃ reason, result !! "error" = Some (VStr reason)) ∧
    dom result = list_to_set
      ["is_signed"; "is_valid"; "signer"; "signature_date"; "error"].
Proof.
  unfold read_metadata, verify_signature, verify_try. intros Hno.
  destruct (fs (world m) !! pdf_path) as [file|];
    [destruct (PdfReader file) as [[pages [metadata|]]|e]|]; simpl in *.
  2-4: eexists; split; [reflexivity|];
       repeat split; eauto; rewrite !dom_insert_L; set_solver.
  rewrite (Hno metadata eq_refl).
  rewrite (bool_decide_eq_false_2 (is_Some None)) by (intros [? [=]]).
  case_bool_decide; eexists; (split; [reflexivity|]);
    repeat split; eauto; rewrite !dom_insert_L; set_solver.
Qed.

Lemma verify_signature_signed m pdf_path metadata signature :
  read_metadata (world m) pdf_path = Some metadata →
  metadata !! "/Signature" = Some signature →
  ∃ result, verify_signature pdf_path m = (Ret result, m) ∧
    result !! "is_signed" = Some (VBool true) ∧
    result !! "is_valid" =
      Some (VBool (bool_decide (metadata !! "/Producer" =
                      Some "Thomson PDF Generator Digital Signature"))) ∧
    result !! "signer" =
      Some (VStr (default "Unknown" (metadata !! "/Author"))) ∧
    result !! "signature_date" =
      Some (VStr (default "Unknown" (metadata !! "/ModDate"))) ∧
    result !! "error" =
      Some (if bool_decide (metadata !! "/Producer" =
                      Some "Thomson PDF Generator Digital Signature")
            then VNone else VStr "Signature format not recognized") ∧
    dom result = list_to_set
      ["is_signed"; "is_valid"; "signer"; "signature_date"; "error"].
Proof.
  unfold read_metadata, verify_signature, verify_try. intros Hmd Hsig.
  destruct (fs (world m) !! pdf_path) as [file|]; [|done].
  destruct (PdfReader file) as [[pages md]|e]; [|done].
  simpl in *. subst md.
  rewrite bool_decide_eq_false_2
    by (intros ->; by rewrite lookup_empty in Hsig).
  rewrite Hsig.
  rewrite (bool_decide_eq_true_2 (is_Some (Some signature))) by eauto.
  case_bool_decide; eexists; (split; [reflexivity|]);
    repeat split; try reflexivity; rewrite !dom_insert_L; set_solver.
Qed.

(** C9. For every path, the dictionary [verify_signature] returns has
    exactly the five fields [is_signed], [is_valid], [signer],
    [signature_date] and [error]; [is_valid] true implies [is_signed] true;
    and [error] is [None] exactly when [is_valid] is true. *)
Theorem verify_result_invariants m pdf_path :
  ∃ result, verify_signature pdf_path m = (Ret result, m) ∧
    dom result = list_to_set
      ["is_signed"; "is_valid"; "signer"; "signature_date"; "error"] ∧
    (result !! "is_valid" = Some (VBool true) →
     result !! "is_signed" = Some (VBool true)) ∧
    (result !! "error" = Some VNone ↔
     result !! "is_valid" = Some (VBool true)).
Proof.
  destruct (read_metadata (world m) pdf_path) as [metadata|] eqn:Hmd;
    [destruct (metadata !! "/Signature") as [signature|] eqn:Hsig|].
  - destruct (verify_signature_signed m pdf_path metadata signature Hmd Hsig)
      as (result & Hrun & Hsigned & Hvalid & _ & _ & Herror & Hdom).
    exists result. repeat split; try done.
    + rewrite Herror, Hvalid. by case_bool_decide.
    + rewrite Herror, Hvalid. by case_bool_decide.
  - destruct (verify_signature_unsigned m pdf_path)
      as (result & Hrun & Hsigned & Hvalid & [reason Herror] & Hdom).
    { intros md. rewrite Hmd. by intros [= <-]. }
    exists result. repeat split; try done; by rewrite ?Herror, ?Hvalid.
  - destruct (verify_signature_unsigned m pdf_path)
      as (result & Hrun & Hsigned & Hvalid & [reason Herror] & Hdom).
    { intros md. by rewrite Hmd. }
    exists result. repeat split; try done; by rewrite ?Herror, ?Hvalid.
Qed.

(** C1. For every path, [verify_signature] answers [is_signed] true exactly
    when the document's metadata has a [/Signature] field, and [is_valid]
    true only if the metadata's [/Producer] is the signing producer string;
    the answer is the same for any signer state and any document that has
    some [/Signature] and the same [/Author], [/ModDate] and [/Producer]:
    the signature value, the pages and the keys held play no part. *)
Theorem verify_checks_provenance_only m pdf_path :
  ∃ result, verify_signature pdf_path m = (Ret result, m) ∧
    (result !! "is_signed" = Some (VBool true) ↔
     ∃ metadata, read_metadata (world m) pdf_path = Some metadata ∧
                 is_Some (metadata !! "/Signature")) ∧
    (result !! "is_valid" = Some (VBool true) →
     read_field (world m) pdf_path "/Producer" =
       Some "Thomson PDF Generator Digital Signature") ∧
    (∀ m2 path2 metadata metadata2,
       read_metadata (world m) pdf_path = Some metadata →
       read_metadata (world m2) path2 = Some metadata2 →
       is_Some (metadata !! "/Signature") →
       is_Some (metadata2 !! "/Signature") →
       metadata !! "/Author" = metadata2 !! "/Author" →
       metadata !! "/ModDate" = metadata2 !! "/ModDate" →
       metadata !! "/Producer" = metadata2 !! "/Producer" →
       verify_signature path2 m2 = (Ret result, m2)).
Proof.
  destruct (read_metadata (world m) pdf_path) as [metadata|] eqn:Hmd;
    [destruct (metadata !! "/Signature") as [signature|] eqn:Hsig|].
  - destruct (verify_signature_signed m pdf_path metadata signature Hmd Hsig)
      as (result & Hrun & Hsigned & Hvalid & Hsigner & Hdate & Herror & Hdom).
    exists result. split; [done|]. split; [|split].
    + split; [|done]. intros _. exists metadata. by rewrite Hsig.
    + rewrite Hvalid. intros [= Hp%bool_decide_eq_true].
      unfold read_field. by rewrite Hmd.
    + intros m2 path2 md md2 [= <-] Hmd2 _ [signature2 Hsig2] Ha Hd Hp.
      destruct (verify_signature_signed m2 path2 md2 signature2 Hmd2 Hsig2)
        as (result2 & Hrun2 & Hsigned2 & Hvalid2 & Hsigner2 & Hdate2
            & Herror2 & Hdom2).
      rewrite Hrun2. f_equal. f_equal. apply map_eq. intros k.
      rewrite <- Ha in Hsigner2. rewrite <- Hd in Hdate2.
      rewrite <- Hp in Hvalid2, Herror2.
      destruct (decide (k ∈ dom result)) as [Hin|Hout].
      * rewrite Hdom in Hin. set_unfold in Hin.
        destruct Hin as [->|[->|[->|[->|[->|[]]]]]]; congruence.
      * assert (k ∉ dom result2) as Hout2 by (by rewrite Hdom2, <- Hdom).
        apply not_elem_of_dom in Hout, Hout2. congruence.
  - destruct (verify_signature_unsigned m pdf_path)
      as (result & Hrun & Hsigned & Hvalid & [reason Herror] & Hdom).
    { intros md. rewrite Hmd. by intros [= <-]. }
    exists result. split; [done|]. split; [|split].
    + rewrite Hsigned. split; [done|].
      intros (md & [= <-] & [? ?]). congruence.
    + by rewrite Hvalid.
    + intros m2 path2 md md2 [= <-] _ [? ?]. congruence.
  - destruct (verify_signature_unsigned m pdf_path)
      as (result & Hrun & Hsigned & Hvalid & [reason Herror] & Hdom).
    { intros md. by rewrite Hmd. }
    exists result. split; [done|]. split; [|split].
    + rewrite Hsigned. split; [done|]. by intros (md & ? & ?).
    + by rewrite Hvalid.
    + by intros m2 path2 md md2 ?.
Qed.

(** C7. [sign_pdf] without a private key or without a certificate returns
    [False] and leaves the memory, every file included, as it was. *)
Theorem sign_without_certificate m pdf_path output_path signature_text
    position :
  private_key (self m) = None ∨ certificate (self m) = None →
  sign_pdf pdf_path output_path signature_text position m = (Ret false, m).
Proof.
  intros Hnone. unfold sign_pdf. run_method.
  by rewrite bool_decide_eq_true_2.
Qed.

Lemma create_document_hash_run m pdf_path file key :
  fs (world m) !! pdf_path = Some file →
  private_key (self m) = Some key →
  _create_document_hash pdf_path m =
    (Ret (hash_or_empty
            (key_sign_pss key (entropy (world m) (draws (world m))) file)),
     mkMem (self m) (draw (world m))).
Proof.
  intros Hfile Hkey. unfold _create_document_hash. run_method.
  rewrite Hfile, Hkey. simpl.
  by destruct (key_sign_pss _ _ _).
Qed.

Lemma sign_pdf_true m m' pdf_path output_path signature_text position :
  sign_pdf pdf_path output_path signature_text position m = (Ret true, m') →
  ∃ key file pages pdf_writer output,
    sign_steps m pdf_path output_path signature_text position
               key file pages pdf_writer output ∧
    m' = mkMem (self m)
               (world_signed (world m) (default pdf_path output_path) output).
Proof.
  unfold sign_pdf. run_method.
  case_bool_decide as Hloaded; [done|].
  destruct (private_key (self m)) as [key|] eqn:Hkey; [|tauto].
  destruct (certificate (self m)) as [cert|] eqn:Hcert; [|tauto].
  destruct (fs (world m) !! pdf_path) as [file|] eqn:Hfile; simpl.
  2: done.
  rewrite ?bool_decide_eq_true_2 by eauto. simpl.
  destruct (_create_signature_overlay _ _ _ _)
    as [signature_buffer|e] eqn:Hov; [|done].
  rewrite Hfile.
  destruct (PdfReader file) as [[pages info]|e] eqn:Hread; [|done].
  simpl.
  destruct (add_all_pages _ _ _ _ _) as [pdf_writer|e] eqn:Hadd; [|done].
  rewrite (create_document_hash_run _ pdf_path file key) by done.
  simpl.
  case_bool_decide as Hro; [done|].
  destruct (PdfWriter_write _ _) as [output|e] eqn:Hwrite; [|done].
  intros [= <-]. exists key, file, pages, pdf_writer, output.
  split; [|done].
  unfold sign_steps. rewrite Hkey, Hcert, Hfile, Hread, Hov.
  repeat split; eauto.
Qed.

Lemma sign_pdf_steps m pdf_path output_path signature_text position
    key file pages pdf_writer output :
  sign_steps m pdf_path output_path signature_text position
             key file pages pdf_writer output →
  sign_pdf pdf_path output_path signature_text position m =
    (Ret true,
     mkMem (self m)
           (world_signed (world m) (default pdf_path output_path) output)).
Proof.
  intros (Hkey & Hcert & Hfile & [info Hread] & (buffer & Hov & Hadd)
          & Hro & Hwrite).
  unfold sign_pdf. run_method.
  rewrite bool_decide_eq_false_2 by (rewrite Hkey; intros [[=]|?]; done).
  rewrite Hfile. simpl.
  rewrite ?bool_decide_eq_true_2 by eauto. simpl.
  rewrite Hov, Hfile, Hread. simpl. rewrite Hadd.
  rewrite (create_document_hash_run _ pdf_path file key) by done.
  simpl. rewrite bool_decide_eq_false_2 by done.
  by rewrite Hwrite.
Qed.

(** The loop of [sign_pdf] copies every page but the last, which it merges
    with the first page of the overlay document. *)
Lemma add_all_pages_ret n i (pages : list Page) signature_buffer writer out :
  i + length pages = n →
  pages ≠ [] →
  add_all_pages n i pages signature_buffer writer = Ret out →
  ∃ front last signature_pdf overlay merged,
    pages = front ++ [last] ∧
    PdfReader signature_buffer = Ret signature_pdf ∧
    signature_pdf.1 !! 0 = Some overlay ∧
    merge_page last overlay = Ret merged ∧
    out = writer ++ front ++ [merged].
Proof.
  revert i writer. induction pages as [|page rest IH]; [done|].
  intros i writer Hlen _. simpl in *. case_decide as Hi.
  - assert (rest = []) as -> by (apply length_zero_iff_nil; lia).
    unfold mbind, res_bind.
    destruct (PdfReader signature_buffer) as [signature_pdf|e]; [|done].
    destruct (signature_pdf.1 !! 0) as [overlay|] eqn:Hov; [|done].
    destruct (merge_page page overlay) as [merged|e] eqn:Hmerge; [|done].
    simpl. intros [= <-].
    by exists [], page, signature_pdf, overlay, merged.
  - intros Hrun. destruct rest as [|page2 rest]; [simpl in *; lia|].
    destruct (IH (S i) (writer ++ [page])) as
      (front & last & signature_pdf & overlay & merged
       & Hrest & Hread & Hov & Hmerge & ->); [simpl in *; lia|done|done|].
    exists (page :: front), last, signature_pdf, overlay, merged.
    rewrite Hrest. repeat split; try done. by rewrite <- app_assoc.
Qed.

Lemma world_signed_output w output_path output :
  fs (world_signed w output_path output) !! output_path = Some output.
Proof. simpl. apply lookup_insert_eq. Qed.

(** The metadata read back from the output of a successful [sign_pdf]. *)
Lemma signed_output_metadata (laws : LibLaws L) m pdf_path output_path
    signature_text position key file pages pdf_writer output :
  sign_steps m pdf_path output_path signature_text position
             key file pages pdf_writer output →
  read_metadata
    (world_signed (world m) (default pdf_path output_path) output)
    (default pdf_path output_path)
  = Some (sign_metadata (self m) pdf_path
            (clock_local (world m) (S (ticks (world m))))
            (hash_or_empty
               (key_sign_pss key
                  (entropy (world m) (draws (world m))) file))).
Proof.
  intros (_ & _ & _ & _ & _ & _ & Hwrite).
  unfold read_metadata. rewrite world_signed_output.
  by rewrite (pdf_write_read _ _ _ Hwrite).
Qed.

(** C6. A successful [sign_pdf] of a document with n >= 1 pages writes a
    document with n pages: every page but the last is the source page, and
    the last is the source's last page merged with the overlay page. *)
Theorem sign_keeps_pages_merges_last (laws : LibLaws L) m m' pdf_path
    output_path signature_text position file pages info :
  fs (world m) !! pdf_path = Some file →
  PdfReader file = Ret (pages, info) →
  (1 ≤ length pages)%nat →
  sign_pdf pdf_path output_path signature_text position m = (Ret true, m') →
  ∃ output written metadata overlay last merged,
    fs (world m') !! default pdf_path output_path = Some output ∧
    PdfReader output = Ret (written, Some metadata) ∧
    length written = length pages ∧
    (∀ i, (i < length pages - 1)%nat → written !! i = pages !! i) ∧
    overlay_page m signature_text position overlay ∧
    pages !! (length pages - 1) = Some last ∧
    merge_page last overlay = Ret merged ∧
    written !! (length pages - 1) = Some merged.
Proof.
  intros Hfile Hread Hn Hsign.
  destruct (sign_pdf_true _ _ _ _ _ _ Hsign)
    as (key & file' & pages' & pdf_writer & output & Hsteps & ->).
  pose proof Hsteps as (_ & _ & Hfile' & [info' Hread'] &
                        (signature_buffer & Hov & Hadd) & _ & Hwrite).
  rewrite Hfile in Hfile'. injection Hfile' as <-.
  rewrite Hread in Hread'. injection Hread' as <- <-.
  assert (pages ≠ []) as Hne by (intros ->; simpl in Hn; lia).
  destruct (add_all_pages_ret _ _ _ _ _ _ (Nat.add_0_l _) Hne Hadd)
    as (front & last & signature_pdf & overlay & merged
        & -> & Hsig & Hfirst & Hmerge & ->).
  simpl in Hwrite.
  eexists output, (front ++ [merged]), _, overlay, last, merged.
  rewrite !length_app in *. simpl in *.
  replace (length front + 1 - 1) with (length front) by lia.
  repeat split.
  - apply lookup_insert_eq.
  - apply pdf_write_read, Hwrite.
  - intros i Hi. by rewrite !lookup_app_l by done.
  - by exists signature_buffer, signature_pdf.
  - by rewrite lookup_app_r, Nat.sub_diag by done.
  - done.
  - by rewrite lookup_app_r, Nat.sub_diag by done.
Qed.


(** C10. When the signing helper hands back empty bytes and the other steps
    of [sign_pdf] go well, [sign_pdf] returns [True], the output's
    [/Signature] field is the empty string, and [verify_signature] on the
    output answers [is_signed] true and [is_valid] true. *)
Theorem sign_with_empty_hash_verifies (laws : LibLaws L) m pdf_path
    output_path signature_text position key file pages pdf_writer output :
  hash_or_empty
    (key_sign_pss key (entropy (world m) (draws (world m))) file) = [] →
  sign_steps m pdf_path output_path signature_text position
             key file pages pdf_writer output →
  ∃ m' result,
    sign_pdf pdf_path output_path signature_text position m = (Ret true, m') ∧
    read_field (world m') (default pdf_path output_path) "/Signature"
      = Some "" ∧
    verify_signature (default pdf_path output_path) m' = (Ret result, m') ∧
    result !! "is_signed" = Some (VBool true) ∧
    result !! "is_valid" = Some (VBool true).
Proof.
  intros Hempty Hsteps.
  pose proof (signed_output_metadata laws _ _ _ _ _ _ _ _ _ _ Hsteps) as Hmd.
  rewrite Hempty in Hmd.
  eexists. 
  edestruct (verify_signature_signed
              (mkMem (self m)
                 (world_signed (world m) (default pdf_path output_path) output))
              (default pdf_path output_path) _ "" Hmd)
    as (result & Hrun & Hsigned & Hvalid & _); [reflexivity|].
  exists result. split; [by eapply sign_pdf_steps|].
  split; [|done].
  unfold read_field. simpl in *. by rewrite Hmd.
Qed.

(** [verify_signature] returns a dictionary: valid, or with a reason. *)
Lemma verify_signature_returns m pdf_path :
  ∃ result, verify_signature pdf_path m = (Ret result, m) ∧
    (result !! "is_valid" = Some (VBool true) ∨
     ∃ reason, result !! "error" = Some (VStr reason)).
Proof.
  destruct (read_metadata (world m) pdf_path) as [metadata|] eqn:Hmd;
    [destruct (metadata !! "/Signature") as [signature|] eqn:Hsig|].
  - destruct (verify_signature_signed m pdf_path metadata signature Hmd Hsig)
      as (result & Hrun & _ & Hvalid & _ & _ & Herror & _).
    exists result. split; [done|]. rewrite Hvalid, Herror.
    case_bool_decide; eauto.
  - destruct (verify_signature_unsigned m pdf_path)
      as (result & Hrun & _ & _ & Herror & _); [|by eauto].
    intros md. rewrite Hmd. by intros [= <-].
  - destruct (verify_signature_unsigned m pdf_path)
      as (result & Hrun & _ & _ & Herror & _); [|by eauto].
    intros md. by rewrite Hmd.
Qed.


(** What a successful [generate_self_signed_certificate] leaves in [self]:
    the third and fourth readings of the clock make [valid_until] and
    [created]. *)
Lemma generate_true (laws : LibLaws L) m m' common_name email organization
    country :
  generate_self_signed_certificate common_name email organization country m
    = (Ret true, m') →
  ∃ key cert t_after,
    private_key (self m') = Some key ∧
    certificate (self m') = Some cert ∧
    cert_subject cert =
      generated_subject common_name email organization country ∧
    replace_year (clock_utc (world m) (S (ticks (world m))))
                 (year (clock_utc (world m) (S (S (ticks (world m))))) + 1)
      = Ret t_after ∧
    signature_info (self m') =
      <["valid_until" := strftime_iso t_after]>
      (<["created" :=
           strftime_iso (clock_utc (world m) (S (S (S (ticks (world m))))))]>
      (<["country" := country]>
      (<["organization" := str_or organization "Not specified"]>
      (<["email" := str_or email "Not specified"]>
      (<["common_name" := common_name]> ∅))))).
Proof.
  unfold generate_self_signed_certificate. run_method.
  destruct (rsa_generate_private_key _) as [key|e]; [simpl|done].
  destruct (x509_NameAttribute COMMON_NAME _) as [a_cn|e] eqn:Hcn; [simpl|done].
  destruct (x509_NameAttribute COUNTRY_NAME _) as [a_c|e] eqn:Hc; [simpl|done].
  apply name_attribute_ok in Hcn as ->. apply name_attribute_ok in Hc as ->.
  unfold generated_subject.
  destruct (truthy_str email);
    [destruct (x509_NameAttribute EMAIL_ADDRESS _) as [a_email|e] eqn:Hemail;
       [apply name_attribute_ok in Hemail as ->|done]|];
    simpl;
    (destruct (truthy_str organization);
     [destruct (x509_NameAttribute ORGANIZATION_NAME _) as [a_org|e] eqn:Horg;
        [apply name_attribute_ok in Horg as ->|done]|]);
    simpl;
    (destruct (replace_year _ _) as [t_after|e] eqn:Hyear; [|done]);
    (destruct (x509_build_and_sign _ _ _ _ _) as [cert|e] eqn:Hbuild; [|done]);
    intros [= <-]; simpl;
    exists key, cert, t_after;
    rewrite (build_subject _ _ _ _ _ _ Hbuild);
    by rewrite (build_not_valid_after _ _ _ _ _ _ Hbuild).
Qed.

(** After a successful [generate_self_signed_certificate] the SignatureInfo
    is the one the certificate gives. *)
Lemma generate_info_matches (laws : LibLaws L) m m' common_name email
    organization country :
  generate_self_signed_certificate common_name email organization country m
    = (Ret true, m') →
  info_matches_certificate (self m').
Proof.
  intros Hgen.
  destruct (generate_true laws _ _ _ _ _ _ Hgen)
    as (key & cert & t_after & _ & Hcert & Hsubject & _ & Hinfo).
  exists cert. split; [done|]. rewrite Hinfo, Hsubject.
  unfold generated_subject.
  destruct email as [[|c1 s1]|], organization as [[|c2 s2]|];
    simpl; repeat split; reflexivity.
Qed.

(** C4, as the code has it. After a successful
    [generate_self_signed_certificate], [get_certificate_info] has the
    common_name and country given, and, when the clock reading taken for
    [created] equals the one taken for the expiry date and the reading taken
    for the expiry year is in the same year, [valid_until] is [created] one
    year on. *)
Theorem generate_info_names_and_validity (laws : LibLaws L) m m' common_name
    email organization country :
  clock_utc (world m) (S (S (S (ticks (world m)))))
    = clock_utc (world m) (S (ticks (world m))) →
  year (clock_utc (world m) (S (S (ticks (world m)))))
    = year (clock_utc (world m) (S (ticks (world m)))) →
  generate_self_signed_certificate common_name email organization country m
    = (Ret true, m') →
  get_certificate_info (self m') !! "common_name" = Some common_name ∧
  get_certificate_info (self m') !! "country" = Some country ∧
  ∃ t,
    get_certificate_info (self m') !! "created" = Some (strftime_iso t) ∧
    get_certificate_info (self m') !! "valid_until"
      = Some (strftime_iso (one_year_later t)).
Proof.
  intros Hcreated Hsame_year Hgen.
  destruct (generate_true laws _ _ _ _ _ _ Hgen)
    as (key & cert & t_after & _ & Hcert & _ & Hyear & Hinfo).
  unfold get_certificate_info. rewrite Hcert, Hinfo.
  do 2 (split; [reflexivity|]).
  exists (clock_utc (world m) (S (ticks (world m)))).
  rewrite Hcreated. split; [reflexivity|].
  rewrite lookup_insert_eq. do 2 f_equal.
  rewrite Hsame_year in Hyear. unfold replace_year in Hyear.
  by repeat case_match; simplify_eq.
Qed.

(** What a successful [load_certificate_from_file] leaves in [self]. *)
Lemma load_steps m cert_path key_path password cert_data cert key_data key :
  fs (world m) !! cert_path = Some cert_data →
  load_pem_x509_certificate cert_data = Ret cert →
  fs (world m) !! key_path = Some key_data →
  load_pem_private_key key_data password = Ret key →
  ∃ m', load_certificate_from_file cert_path key_path password m
          = (Ret true, m') ∧
    private_key (self m') = Some key ∧
    certificate (self m') = Some cert ∧
    info_matches_certificate (self m').
Proof.
  intros Hcd Hcert Hkd Hkey.
  unfold load_certificate_from_file. run_method.
  rewrite Hcd. simpl. rewrite Hcert. simpl. rewrite Hkd. simpl.
  rewrite Hkey. simpl. eexists. split; [reflexivity|]. do 2 (split; [done|]).
  exists cert. simpl. repeat split; reflexivity.
Qed.

(** C3, as the code has it. When the certificate file is readable and well
    formed and the private key does not load (wrong or missing password),
    [load_certificate_from_file] returns [False], leaves the private key,
    the SignatureInfo and the world as they were, and holds the
    certificate read from the file. *)
Theorem load_wrong_password_keeps_key_and_info m cert_path key_path password
    cert_data cert key_data e :
  fs (world m) !! cert_path = Some cert_data →
  load_pem_x509_certificate cert_data = Ret cert →
  fs (world m) !! key_path = Some key_data →
  load_pem_private_key key_data password = Raise e →
  load_certificate_from_file cert_path key_path password m =
    (Ret false,
     mkMem (mkPDFSigner (private_key (self m)) (Some cert)
                        (signature_info (self m)))
           (world m)).
Proof.
  intros Hcd Hcert Hkd Hkey.
  unfold load_certificate_from_file. run_method.
  rewrite Hcd. simpl. rewrite Hcert. simpl. rewrite Hkd. simpl.
  by rewrite Hkey.
Qed.

(** What a successful [save_certificate] wrote. *)
Lemma save_true m m' cert_path key_path password :
  save_certificate cert_path key_path password m = (Ret true, m') →
  ∃ cert key key_data,
    certificate (self m) = Some cert ∧
    private_key (self m) = Some key ∧
    key_private_bytes key (encryption_of password) = Ret key_data ∧
    fs (world m') =
      <[key_path := key_data]>
      (<[key_path := []]>
      (<[cert_path := cert_public_bytes cert]>
      (<[cert_path := []]> (fs (world m))))).
Proof.
  unfold save_certificate. run_method.
  destruct (certificate (self m)) as [cert|]; [|done].
  destruct (private_key (self m)) as [key|]; [|done].
  run_method.
  case_bool_decide; [done|]. simpl.
  case_bool_decide; [done|]. simpl.
  fold (encryption_of password).
  destruct (key_private_bytes key _) as [key_data|e] eqn:Hbytes; [|done].
  intros [= <-]. by exists cert, key, key_data.
Qed.


End Properties.

(** ** Concrete runs *)

Section Runs.
Import RefLib Scenario.



(** Against C3 as stated. Alice loads Bob's certificate and Bob's encrypted
    key with a wrong password: the call returns [False], and the signer's
    certificate is no longer the one it held. *)
Lemma load_wrong_password_replaces_certificate :
  (load_certificate_from_file "bob.crt" "bob.key" (Some ["x"%byte]) alice).1
    = Ret false ∧
  certificate (self alice) ≠
  certificate
    (self (load_certificate_from_file "bob.crt" "bob.key" (Some ["x"%byte])
             alice).2).
Proof. split; [vm_compute; reflexivity|]. vm_compute. discriminate. Qed.

(** The theorem for C3 on that call. *)
Lemma load_wrong_password_witness :
  load_certificate_from_file "bob.crt" "bob.key" (Some ["x"%byte]) alice =
    (Ret false,
     mkMem (mkPDFSigner (private_key (self alice)) (Some bob_cert)
                        (signature_info (self alice)))
           (world alice)).
Proof.
  apply (load_wrong_password_keeps_key_and_info alice "bob.crt" "bob.key"
           (Some ["x"%byte]) (ser "C"%byte bob_cert) bob_cert
           (ser "K"%byte ((true, 9%N), Some secret))
           "Bad decrypt. Incorrect password?");
    vm_compute; reflexivity.
Defined.

(** Against C4 as stated. The clock passes a second boundary between the
    reading that makes the expiry date and the one that makes [created]:
    the call succeeds, and [valid_until] is not [created] one year on. *)
Lemma generate_across_a_second_boundary :
  (generate_self_signed_certificate "Alice" None None "US" ticking).1
    = Ret true ∧
  let info :=
    get_certificate_info
      (self (generate_self_signed_certificate "Alice" None None "US"
               ticking).2) in
  info !! "created" = Some "2024-01-01 12:00:01" ∧
  info !! "valid_until" = Some "2025-01-01 12:00:00" ∧
  ¬ ∃ t, info !! "created" = Some (strftime_iso t) ∧
         info !! "valid_until" = Some (strftime_iso (one_year_later t)).
Proof.
  split; [vm_compute; reflexivity|].
  assert (get_certificate_info
            (self (generate_self_signed_certificate "Alice" None None "US"
                     ticking).2) !! "created"
          = Some "2024-01-01 12:00:01") as Hcreated
    by (vm_compute; reflexivity).
  assert (get_certificate_info
            (self (generate_self_signed_certificate "Alice" None None "US"
                     ticking).2) !! "valid_until"
          = Some "2025-01-01 12:00:00") as Hvalid
    by (vm_compute; reflexivity).
  cbv zeta. rewrite Hcreated, Hvalid. do 2 (split; [reflexivity|]).
  clear Hcreated Hvalid. intros (t & Ht & Ht').
  unfold strftime_iso, one_year_later, pad4, pad2 in Ht, Ht'.
  cbv beta iota zeta delta [String.append] in Ht, Ht'.
  simpl in Ht, Ht'. congruence.
Qed.

(** The theorem for C4 under the clock that stands still. *)
Lemma generate_info_names_and_validity_witness :
  get_certificate_info (self alice) !! "common_name" = Some "Alice" ∧
  get_certificate_info (self alice) !! "country" = Some "US" ∧
  ∃ t,
    get_certificate_info (self alice) !! "created" = Some (strftime_iso t) ∧
    get_certificate_info (self alice) !! "valid_until"
      = Some (strftime_iso (one_year_later t)).
Proof.
  apply (generate_info_names_and_validity ref_laws fresh alice "Alice"
           (Some "a@x.com") None "US");
    vm_compute; reflexivity.
Defined.



(** The theorem for C6 on Alice signing the three-page document. *)
Lemma sign_keeps_pages_merges_last_witness :
  ∃ output written metadata overlay last merged,
    fs (world signed_once) !! "out1.pdf" = Some output ∧
    PdfReader output = Ret (written, Some metadata) ∧
    length written = 3%nat ∧
    (∀ i, (i < 2)%nat →
          written !! i = [["page 1"]; ["page 2"]; ["page 3"]] !! i) ∧
    overlay_page alice None None overlay ∧
    [["page 1"]; ["page 2"]; ["page 3"]] !! 2%nat = Some last ∧
    merge_page last overlay = Ret merged ∧
    written !! 2%nat = Some merged.
Proof.
  apply (sign_keeps_pages_merges_last ref_laws alice signed_once "in.pdf"
           (Some "out1.pdf") None None three_pages
           [["page 1"]; ["page 2"]; ["page 3"]]
           (Some (<["/Title" := "Report"]> ∅))).
  - vm_compute; reflexivity.
  - vm_compute; reflexivity.
  - simpl; lia.
  - vm_compute; reflexivity.
Defined.

(** The theorem for C7 on a new signer. *)
Lemma sign_without_certificate_witness :
  sign_pdf "in.pdf" (Some "out.pdf") None None fresh = (Ret false, fresh).
Proof.
  apply (sign_without_certificate fresh "in.pdf" (Some "out.pdf") None None).
  left. reflexivity.
Defined.

(** The theorem for C10 on a signer whose key rejects the PSS call. *)
Lemma sign_with_empty_hash_verifies_witness :
  ∃ m' result,
    sign_pdf "in.pdf" (Some "out.pdf") None None bob_with_ec_key
      = (Ret true, m') ∧
    read_field (world m') "out.pdf" "/Signature" = Some "" ∧
    verify_signature "out.pdf" m' = (Ret result, m') ∧
    result !! "is_signed" = Some (VBool true) ∧
    result !! "is_valid" = Some (VBool true).
Proof.
  apply (sign_with_empty_hash_verifies ref_laws bob_with_ec_key "in.pdf"
           (Some "out.pdf") None None (false, 9%N) three_pages
           [["page 1"]; ["page 2"]; ["page 3"]] signed_pages signed_output).
  - vm_compute; reflexivity.
  - unfold sign_steps. split; [reflexivity|]. split; [discriminate|].
    split; [reflexivity|]. split; [eexists; vm_compute; reflexivity|].
    split.
    { eexists. split; vm_compute; reflexivity. }
    split; [vm_compute; set_solver|]. vm_compute; reflexivity.
Defined.

End Runs.

(** ** Further properties of the signer *)

Section Further.
Context {L : Lib}.

Implicit Types (m : Mem L) (me : PDFSigner L) (w : World).

Ltac run_body :=
  unfold try_except, mbind, M_bind, mret, M_ret, lift, raise, get_self,
    set_private_key, set_certificate, set_signature_info, now_utc,
    now_local, os_urandom, path_exists, open_rb, open_wb, file_write;
  simpl.

(** Every outcome of [generate_self_signed_certificate]: on [True] the key,
    the certificate and the SignatureInfo are new; on [False] the key is the
    old or the new one and the rest is as before. No file changes. *)
Lemma generate_outcomes m common_name email organization country :
  ∃ ok m',
    generate_self_signed_certificate common_name email organization country m
      = (Ret ok, m') ∧
    fs (world m') = fs (world m) ∧
    readonly (world m') = readonly (world m) ∧
    if ok then
      ∃ key cert,
        rsa_generate_private_key (entropy (world m) (draws (world m)))
          = Ret key ∧
        self m' = mkPDFSigner (Some key) (Some cert)
          (<["valid_until" := strftime_iso (cert_not_valid_after_utc cert)]>
           (<["created" :=
                strftime_iso
                  (clock_utc (world m) (S (S (S (ticks (world m))))))]>
           (<["country" := country]>
           (<["organization" := str_or organization "Not specified"]>
           (<["email" := str_or email "Not specified"]>
           (<["common_name" := common_name]> ∅))))))
    else
      certificate (self m') = certificate (self m) ∧
      signature_info (self m') = signature_info (self m) ∧
      (private_key (self m') = private_key (self m) ∨
       ∃ key,
         rsa_generate_private_key (entropy (world m) (draws (world m)))
           = Ret key ∧
         private_key (self m') = Some key).
Proof.
  unfold generate_self_signed_certificate. run_body.
  destruct (rsa_generate_private_key _) as [key|e] eqn:Hkey; simpl;
    [|exists false; eexists; split; [reflexivity|]; simpl; auto 10].
  destruct (x509_NameAttribute COMMON_NAME _) as [a_cn|e]; simpl;
    [|exists false; eexists; split; [reflexivity|]; simpl; eauto 10].
  destruct (x509_NameAttribute COUNTRY_NAME _) as [a_c|e]; simpl;
    [|exists false; eexists; split; [reflexivity|]; simpl; eauto 10].
  destruct (truthy_str email);
    [destruct (x509_NameAttribute EMAIL_ADDRESS _) as [a_email|e]|];
    simpl;
    try (exists false; eexists; split; [reflexivity|]; simpl; by eauto 10);
    (destruct (truthy_str organization);
     [destruct (x509_NameAttribute ORGANIZATION_NAME _) as [a_org|e]|]);
    simpl;
    try (exists false; eexists; split; [reflexivity|]; simpl; by eauto 10);
    (destruct (replace_year _ _) as [t_after|e]; simpl;
     [|exists false; eexists; split; [reflexivity|]; simpl; by eauto 10]);
    (destruct (x509_build_and_sign _ _ _ _ _) as [cert|e]; simpl;
     [|exists false; eexists; split; [reflexivity|]; simpl; by eauto 10]);
    exists true; eexists; (split; [reflexivity|]); simpl;
    do 2 (split; [reflexivity|]); by exists key, cert.
Qed.

(** Every outcome of [load_certificate_from_file]: the world is never
    touched; on [True] all three fields are new; on [False] the key and the
    SignatureInfo are as before and the certificate is the old one or the
    one read from the file. *)
Lemma load_outcomes m cert_path key_path password :
  ∃ ok m',
    load_certificate_from_file cert_path key_path password m = (Ret ok, m') ∧
    world m' = world m ∧
    if ok then
      ∃ cert_data cert key_data key,
        fs (world m) !! cert_path = Some cert_data ∧
        load_pem_x509_certificate cert_data = Ret cert ∧
        fs (world m) !! key_path = Some key_data ∧
        load_pem_private_key key_data password = Ret key ∧
        self m' = mkPDFSigner (Some key) (Some cert)
          (<["valid_until" := strftime_iso (cert_not_valid_after_utc cert)]>
           (<["valid_from" := strftime_iso (cert_not_valid_before_utc cert)]>
           (<["country" :=
                _get_name_attribute (cert_subject cert) COUNTRY_NAME]>
           (<["organization" :=
                _get_name_attribute (cert_subject cert) ORGANIZATION_NAME]>
           (<["email" :=
                _get_name_attribute (cert_subject cert) EMAIL_ADDRESS]>
           (<["common_name" :=
                _get_name_attribute (cert_subject cert) COMMON_NAME]> ∅))))))
    else
      private_key (self m') = private_key (self m) ∧
      signature_info (self m') = signature_info (self m) ∧
      (certificate (self m') = certificate (self m) ∨
       ∃ cert_data cert,
         fs (world m) !! cert_path = Some cert_data ∧
         load_pem_x509_certificate cert_data = Ret cert ∧
         certificate (self m') = Some cert).
Proof.
  unfold load_certificate_from_file. run_body.
  destruct (fs (world m) !! cert_path) as [cert_data|] eqn:Hcd; simpl;
    [|exists false; eexists; split; [reflexivity|]; simpl; by auto].
  destruct (load_pem_x509_certificate cert_data) as [cert|e] eqn:Hcert; simpl;
    [|exists false; eexists; split; [reflexivity|]; simpl; by auto].
  destruct (fs (world m) !! key_path) as [key_data|] eqn:Hkd; simpl;
    [|exists false; eexists; split; [reflexivity|]; simpl; by eauto 10].
  destruct (load_pem_private_key key_data password) as [key|e] eqn:Hkey; simpl;
    [|exists false; eexists; split; [reflexivity|]; simpl; by eauto 10].
  exists true. eexists. split; [reflexivity|]. simpl. split; [done|].
  by exists cert_data, cert, key_data, key.
Qed.

(** Every outcome of [save_certificate]: the signer is never touched, and
    no file but the two named. *)
Lemma save_outcomes m cert_path key_path password :
  ∃ ok m',
    save_certificate cert_path key_path password m = (Ret ok, m') ∧
    self m' = self m ∧
    ∀ path, path ≠ cert_path → path ≠ key_path →
            fs (world m') !! path = fs (world m) !! path.
Proof.
  unfold save_certificate. run_body.
  destruct (certificate (self m)) as [cert|];
    [|by exists false; eexists].
  destruct (private_key (self m)) as [key|];
    [|by exists false; eexists].
  run_body.
  case_bool_decide; simpl; [by exists false; eexists|].
  case_bool_decide; simpl.
  { exists false. eexists. split; [reflexivity|]. simpl. split; [done|].
    intros path Hc Hk. by rewrite !lookup_insert_ne. }
  destruct (key_private_bytes key _) as [key_data|e]; simpl.
  - exists true. eexists. split; [reflexivity|]. simpl. split; [done|].
    intros path Hc Hk. by rewrite !lookup_insert_ne.
  - exists false. eexists. split; [reflexivity|]. simpl. split; [done|].
    intros path Hc Hk. by rewrite !lookup_insert_ne.
Qed.

(** [_create_document_hash] always returns, and writes nothing. *)
Lemma create_document_hash_returns m pdf_path :
  ∃ document_hash m',
    _create_document_hash pdf_path m = (Ret document_hash, m') ∧
    self m' = self m ∧ fs (world m') = fs (world m) ∧
    readonly (world m') = readonly (world m).
Proof.
  unfold _create_document_hash. run_body.
  destruct (fs (world m) !! pdf_path) as [file|]; simpl;
    [|by do 2 eexists].
  destruct (private_key (self m)) as [key|]; simpl; [|by do 2 eexists].
  destruct (key_sign_pss _ _ _); simpl; by do 2 eexists.
Qed.

(** Every outcome of [sign_pdf]: the signer is never touched, and no file
    but the output; on [False] no file at all, unless the PDF writer was
    reached and raised. *)
Lemma sign_outcomes m pdf_path output_path signature_text position :
  ∃ ok m',
    sign_pdf pdf_path output_path signature_text position m = (Ret ok, m') ∧
    self m' = self m ∧
    (∀ path, path ≠ default pdf_path output_path →
             fs (world m') !! path = fs (world m) !! path) ∧
    (ok = false →
     fs (world m') = fs (world m) ∨
     ∃ pdf_writer document_hash e,
       PdfWriter_write pdf_writer
         (sign_metadata (self m) pdf_path
            (clock_local (world m) (S (ticks (world m)))) document_hash)
       = Raise e).
Proof.
  unfold sign_pdf. run_body.
  case_bool_decide; simpl; [by exists false; eexists; eauto|].
  destruct (fs (world m) !! pdf_path) as [file|] eqn:Hfile; simpl;
    [|by exists false; eexists; eauto].
  destruct (_create_signature_overlay _ _ _ _) as [signature_buffer|e]; simpl;
    [|by exists false; eexists; eauto].
  rewrite Hfile.
  destruct (PdfReader file) as [[pages info]|e]; simpl;
    [|by exists false; eexists; eauto].
  destruct (add_all_pages _ _ _ _ _) as [pdf_writer|e]; simpl;
    [|by exists false; eexists; eauto].
  match goal with |- context [_create_document_hash ?p ?m0] =>
    destruct (create_document_hash_returns m0 p)
      as (document_hash & m1 & -> & Hself & Hfs & Hro)
  end.
  simpl in *. rewrite Hro.
  case_bool_decide; simpl.
  { exists false. eexists. split; [reflexivity|]. rewrite Hself, Hfs. eauto. }
  destruct (PdfWriter_write _ _) as [output|e] eqn:Hwrite; simpl.
  - exists true. eexists. split; [reflexivity|]. simpl. rewrite Hself, Hfs.
    split; [done|]. split; [|done].
    intros path Hp. by rewrite !lookup_insert_ne.
  - exists false. eexists. split; [reflexivity|]. simpl. rewrite Hself, Hfs.
    split; [done|]. split; [|by eauto 10].
    intros path Hp. by rewrite !lookup_insert_ne.
Qed.

(** X1. [verify_signature] on the output of a successful [sign_pdf] answers
    signed and valid, with no error, the signer being the SignatureInfo's
    common name and the date the second clock reading of the call. *)
Theorem sign_then_verify (laws : LibLaws L) m m' pdf_path output_path
    signature_text position :
  sign_pdf pdf_path output_path signature_text position m = (Ret true, m') →
  ∃ result,
    verify_signature (default pdf_path output_path) m' = (Ret result, m') ∧
    result !! "is_signed" = Some (VBool true) ∧
    result !! "is_valid" = Some (VBool true) ∧
    result !! "signer" =
      Some (VStr (default "Unknown"
                    (signature_info (self m) !! "common_name"))) ∧
    result !! "signature_date" =
      Some (VStr ("D:" +:+
                  strftime_compact
                    (clock_local (world m) (S (ticks (world m)))))) ∧
    result !! "error" = Some VNone.
Proof.
  intros Hsign.
  destruct (sign_pdf_true _ _ _ _ _ _ Hsign)
    as (key & file & pages & pdf_writer & output & Hsteps & ->).
  pose proof (signed_output_metadata laws _ _ _ _ _ _ _ _ _ _ Hsteps) as Hmd.
  destruct (verify_signature_signed
              (mkMem (self m)
                 (world_signed (world m) (default pdf_path output_path)
                    output)) _ _
              (b64encode
                 (hash_or_empty
                    (key_sign_pss key
                       (entropy (world m) (draws (world m))) file))) Hmd)
    as (result & Hrun & Hsigned & Hvalid & Hsigner & Hdate & Herror & _);
    [reflexivity|].
  exists result. by repeat split.
Qed.

(** X2. Whatever [sign_pdf] returns, it leaves the signer as it was and
    changes no file other than the output path. *)
Theorem sign_touches_only_the_output m pdf_path output_path signature_text
    position :
  ∃ ok m',
    sign_pdf pdf_path output_path signature_text position m = (Ret ok, m') ∧
    self m' = self m ∧
    ∀ path, path ≠ default pdf_path output_path →
            fs (world m') !! path = fs (world m) !! path.
Proof.
  destruct (sign_outcomes m pdf_path output_path signature_text position)
    as (ok & m' & Hrun & Hself & Hfiles & _).
  by exists ok, m'.
Qed.

(** X3. [sign_pdf] of a path that does not exist, with key and certificate
    loaded, returns [False] and leaves the memory as it was: no file is
    written and the clock is not read. *)
Theorem sign_missing_document m pdf_path output_path signature_text position :
  private_key (self m) ≠ None →
  certificate (self m) ≠ None →
  fs (world m) !! pdf_path = None →
  sign_pdf pdf_path output_path signature_text position m = (Ret false, m).
Proof.
  intros Hkey Hcert Hfile. unfold sign_pdf. run_body.
  rewrite bool_decide_eq_false_2 by tauto. simpl.
  by rewrite Hfile.
Qed.


(** X5. The output of a successful [sign_pdf] carries exactly the seven
    signing fields, whatever metadata the source had: the author is the
    SignatureInfo's common name ("Unknown" without one) and the title is
    made from the stem of the source path. *)
Theorem sign_output_metadata_fields (laws : LibLaws L) m m' pdf_path
    output_path signature_text position :
  sign_pdf pdf_path output_path signature_text position m = (Ret true, m') →
  ∃ metadata,
    read_metadata (world m') (default pdf_path output_path) = Some metadata ∧
    dom metadata = list_to_set
      ["/Title"; "/Author"; "/Subject"; "/Creator"; "/Producer"; "/ModDate";
       "/Signature"] ∧
    metadata !! "/Author" =
      Some (default "Unknown" (signature_info (self m) !! "common_name")) ∧
    metadata !! "/Title" = Some ("Signed PDF - " +:+ path_stem pdf_path) ∧
    metadata !! "/Subject" = Some "Digitally Signed Document".
Proof.
  intros Hsign.
  destruct (sign_pdf_true _ _ _ _ _ _ Hsign)
    as (key & file & pages & pdf_writer & output & Hsteps & ->).
  pose proof (signed_output_metadata laws _ _ _ _ _ _ _ _ _ _ Hsteps) as Hmd.
  eexists. split; [exact Hmd|]. unfold sign_metadata.
  split; [rewrite !dom_insert_L; set_solver|]. by repeat split.
Qed.

(** X6. A certificate generated for a common name, then used to sign: the
    output verifies as signed and valid, and the signer reported is that
    common name. *)
Theorem generate_sign_verify (laws : LibLaws L) m m1 m2 common_name email
    organization country pdf_path output_path signature_text position :
  generate_self_signed_certificate common_name email organization country m
    = (Ret true, m1) →
  sign_pdf pdf_path output_path signature_text position m1 = (Ret true, m2) →
  ∃ result,
    verify_signature (default pdf_path output_path) m2 = (Ret result, m2) ∧
    result !! "is_signed" = Some (VBool true) ∧
    result !! "is_valid" = Some (VBool true) ∧
    result !! "signer" = Some (VStr common_name).
Proof.
  intros Hgen Hsign.
  destruct (generate_outcomes m common_name email organization country)
    as (ok & m' & Hrun & _ & _ & Hok).
  rewrite Hgen in Hrun. injection Hrun as <- <-.
  destruct Hok as (key & cert & _ & Hself).
  destruct (sign_pdf_true _ _ _ _ _ _ Hsign)
    as (key' & file & pages & pdf_writer & output & Hsteps & ->).
  pose proof (signed_output_metadata laws _ _ _ _ _ _ _ _ _ _ Hsteps) as Hmd.
  destruct (verify_signature_signed
              (mkMem (self m1)
                 (world_signed (world m1) (default pdf_path output_path)
                    output)) _ _
              (b64encode
                 (hash_or_empty
                    (key_sign_pss key'
                       (entropy (world m1) (draws (world m1))) file))) Hmd)
    as (result & Hrun & Hsigned & Hvalid & Hsigner & _); [reflexivity|].
  exists result. repeat split; try done.
  rewrite Hsigner. unfold sign_metadata. rewrite Hself. reflexivity.
Qed.

(** X7. A document that has a [/Signature] field and any other
    [/Producer] than the signing one (or none) is reported signed but not
    valid, with the reason "Signature format not recognized"; signer and
    date are still taken from [/Author] and [/ModDate]. *)
Theorem verify_other_producer m pdf_path metadata signature :
  read_metadata (world m) pdf_path = Some metadata →
  metadata !! "/Signature" = Some signature →
  metadata !! "/Producer" ≠ Some "Thomson PDF Generator Digital Signature" →
  ∃ result,
    verify_signature pdf_path m = (Ret result, m) ∧
    result !! "is_signed" = Some (VBool true) ∧
    result !! "is_valid" = Some (VBool false) ∧
    result !! "error" = Some (VStr "Signature format not recognized") ∧
    result !! "signer" =
      Some (VStr (default "Unknown" (metadata !! "/Author"))) ∧
    result !! "signature_date" =
      Some (VStr (default "Unknown" (metadata !! "/ModDate"))).
Proof.
  intros Hmd Hsig Hproducer.
  destruct (verify_signature_signed m pdf_path metadata signature Hmd Hsig)
    as (result & Hrun & Hsigned & Hvalid & Hsigner & Hdate & Herror & _).
  rewrite bool_decide_eq_false_2 in Hvalid, Herror by done.
  by exists result.
Qed.

(** X8. When [generate_self_signed_certificate] returns [False], the
    certificate, the SignatureInfo and every file are as before; the
    private key is either as before or already replaced by the new one. *)
Theorem generate_failure_keeps_certificate m m' common_name email organization
    country :
  generate_self_signed_certificate common_name email organization country m
    = (Ret false, m') →
  certificate (self m') = certificate (self m) ∧
  signature_info (self m') = signature_info (self m) ∧
  fs (world m') = fs (world m) ∧
  (private_key (self m') = private_key (self m) ∨
   ∃ key,
     rsa_generate_private_key (entropy (world m) (draws (world m))) = Ret key ∧
     private_key (self m') = Some key).
Proof.
  intros Hgen.
  destruct (generate_outcomes m common_name email organization country)
    as (ok & m'' & Hrun & Hfs & _ & Hok).
  rewrite Hgen in Hrun. injection Hrun as <- <-.
  by destruct Hok as (? & ? & ?).
Qed.

(** X9. On 29 February (the clock reading taken for the expiry date) with
    a following year that is no leap year, [generate_self_signed_certificate]
    returns [False]: the date does not exist one year on. *)
Theorem generate_fails_on_29_february m common_name email organization country :
  month (clock_utc (world m) (S (ticks (world m)))) = 2%N →
  day (clock_utc (world m) (S (ticks (world m)))) = 29%N →
  is_leap (year (clock_utc (world m) (S (S (ticks (world m))))) + 1) = false →
  ∃ m',
    generate_self_signed_certificate common_name email organization country m
      = (Ret false, m') ∧
    certificate (self m') = certificate (self m) ∧
    signature_info (self m') = signature_info (self m).
Proof.
  intros Hmonth Hday Hleap.
  destruct (generate_outcomes m common_name email organization country)
    as (ok & m' & Hrun & _ & _ & Hok).
  destruct ok.
  - exfalso. revert Hrun.
    unfold generate_self_signed_certificate. run_body.
    destruct (rsa_generate_private_key _); simpl; [|done].
    destruct (x509_NameAttribute COMMON_NAME _); simpl; [|done].
    destruct (x509_NameAttribute COUNTRY_NAME _); simpl; [|done].
    assert (∀ y, is_leap y = false →
              ∃ e, replace_year (clock_utc (world m) (S (ticks (world m)))) y
                   = Raise e) as Hraise.
    { intros y Hy. unfold replace_year. rewrite Hmonth, Hday, Hy. simpl.
      destruct (negb _); eauto. }
    destruct (Hraise _ Hleap) as [e He].
    destruct (truthy_str email);
      [destruct (x509_NameAttribute EMAIL_ADDRESS _)|]; simpl; try done;
      (destruct (truthy_str organization);
       [destruct (x509_NameAttribute ORGANIZATION_NAME _)|]); simpl;
      try done; by rewrite He.
  - exists m'. by destruct Hok as (? & ? & ?).
Qed.

(** X10. After a successful [generate_self_signed_certificate] the
    certificate is loaded and [get_certificate_info] is the SignatureInfo;
    so [test_signer] returns what the generation returned, and never takes
    its "not properly loaded" branch. *)
Theorem generate_success_is_loaded :
  (∀ m m' common_name email organization country,
     generate_self_signed_certificate common_name email organization country m
       = (Ret true, m') →
     is_certificate_loaded (self m') = true ∧
     get_certificate_info (self m') = signature_info (self m')) ∧
  (∀ w,
     (test_signer w).1 =
     (generate_self_signed_certificate "Test User" (Some "test@example.com")
        (Some "Test Org") "US" (mkMem __init__ w)).1).
Proof.
  assert (∀ m m' common_name email organization country,
     generate_self_signed_certificate common_name email organization country m
       = (Ret true, m') →
     is_certificate_loaded (self m') = true ∧
     get_certificate_info (self m') = signature_info (self m')) as Hloaded.
  { intros m m' common_name email organization country Hgen.
    destruct (generate_outcomes m common_name email organization country)
      as (ok & m'' & Hrun & _ & _ & Hok).
    rewrite Hgen in Hrun. injection Hrun as <- <-.
    destruct Hok as (key & cert & _ & ->).
    unfold is_certificate_loaded, get_certificate_info. by simpl. }
  split; [done|]. intros w. unfold test_signer.
  destruct (generate_self_signed_certificate _ _ _ _ _)
    as [[[|]|e] m'] eqn:Hgen; try done.
  by rewrite (proj1 (Hloaded _ _ _ _ _ _ Hgen)).
Qed.

(** X11. The SignatureInfo of a generated certificate has a [created] field
    and no [valid_from]; the one of a loaded certificate has [valid_from]
    and no [created]. Both have the four identity fields and
    [valid_until]. *)
Theorem info_fields_after_generate_and_load :
  (∀ m m' common_name email organization country,
     generate_self_signed_certificate common_name email organization country m
       = (Ret true, m') →
     dom (get_certificate_info (self m')) = list_to_set
       ["common_name"; "email"; "organization"; "country"; "created";
        "valid_until"]) ∧
  (∀ m m' cert_path key_path password,
     load_certificate_from_file cert_path key_path password m
       = (Ret true, m') →
     dom (get_certificate_info (self m')) = list_to_set
       ["common_name"; "email"; "organization"; "country"; "valid_from";
        "valid_until"]).
Proof.
  split.
  - intros m m' common_name email organization country Hgen.
    destruct (generate_outcomes m common_name email organization country)
      as (ok & m'' & Hrun & _ & _ & Hok).
    rewrite Hgen in Hrun. injection Hrun as <- <-.
    destruct Hok as (key & cert & _ & ->).
    unfold get_certificate_info. simpl. rewrite !dom_insert_L. set_solver.
  - intros m m' cert_path key_path password Hload.
    destruct (load_outcomes m cert_path key_path password)
      as (ok & m'' & Hrun & _ & Hok).
    rewrite Hload in Hrun. injection Hrun as <- <-.
    destruct Hok as (cert_data & cert & key_data & key & _ & _ & _ & _ & ->).
    unfold get_certificate_info. simpl. rewrite !dom_insert_L. set_solver.
Qed.

(** X12. [load_certificate_from_file] with a certificate file that is
    missing or does not parse returns [False] and leaves the whole memory
    as it was. *)
Theorem load_bad_certificate_changes_nothing m cert_path key_path password :
  (fs (world m) !! cert_path = None ∨
   ∃ cert_data e,
     fs (world m) !! cert_path = Some cert_data ∧
     load_pem_x509_certificate cert_data = Raise e) →
  load_certificate_from_file cert_path key_path password m = (Ret false, m).
Proof.
  intros Hbad. unfold load_certificate_from_file. run_body.
  destruct Hbad as [->|(cert_data & e & -> & Hraise)]; simpl.
  - by destruct m.
  - rewrite Hraise. by destruct m.
Qed.

(** X13. [save_certificate] without a certificate or without a private key
    returns [False] and writes nothing. *)
Theorem save_without_certificate m cert_path key_path password :
  certificate (self m) = None ∨ private_key (self m) = None →
  save_certificate cert_path key_path password m = (Ret false, m).
Proof.
  intros Hnone. unfold save_certificate. run_body.
  destruct (certificate (self m)) as [cert|]; [|by destruct m].
  destruct (private_key (self m)) as [key|]; [|by destruct m].
  by destruct Hnone.
Qed.

(** X14. A [save_certificate] that fails after the certificate file was
    opened does not take the certificate file back: with certificate and
    key held and a writable certificate path other than the key path, a
    [False] leaves the certificate written; the key file is then untouched
    (its path cannot be written) or empty (the key did not serialize). *)
Theorem save_failure_keeps_certificate_file m m' cert_path key_path password
    cert key :
  certificate (self m) = Some cert →
  private_key (self m) = Some key →
  cert_path ∉ readonly (world m) →
  cert_path ≠ key_path →
  save_certificate cert_path key_path password m = (Ret false, m') →
  fs (world m') !! cert_path = Some (cert_public_bytes cert) ∧
  (key_path ∈ readonly (world m) ∧
     fs (world m') !! key_path = fs (world m) !! key_path
   ∨ (∃ e, key_private_bytes key (encryption_of password) = Raise e) ∧
     fs (world m') !! key_path = Some []).
Proof.
  intros Hcert Hkey Hwritable Hpaths.
  unfold save_certificate. run_body. rewrite Hcert, Hkey. run_body.
  rewrite bool_decide_eq_false_2 by done. simpl.
  fold (encryption_of password).
  case_bool_decide as Hro; simpl.
  - intros [= <-]. simpl. rewrite lookup_insert_eq. split; [done|]. left.
    split; [done|]. by rewrite !lookup_insert_ne.
  - destruct (key_private_bytes key _) as [key_data|e] eqn:Hbytes; [done|].
    intros [= <-]. simpl. rewrite lookup_insert_ne by done.
    rewrite lookup_insert_eq. split; [done|]. right.
    split; [by eauto|]. by rewrite lookup_insert_eq.
Qed.

(** X15. Whatever [save_certificate] returns, it leaves the signer as it
    was and changes no file other than the two paths it was given. *)
Theorem save_touches_only_its_paths m cert_path key_path password :
  ∃ ok m',
    save_certificate cert_path key_path password m = (Ret ok, m') ∧
    self m' = self m ∧
    ∀ path, path ≠ cert_path → path ≠ key_path →
            fs (world m') !! path = fs (world m) !! path.
Proof.
  destruct (save_outcomes m cert_path key_path password)
    as (ok & m' & Hrun & Hself & Hfiles).
  by exists ok, m'.
Qed.

(** X16. Generating, loading and verifying never write: whatever
    [generate_self_signed_certificate], [load_certificate_from_file] and
    [verify_signature] return, every file is as it was. *)
Theorem generate_load_verify_write_nothing m :
  (∀ common_name email organization country,
     fs (world (generate_self_signed_certificate common_name email
                  organization country m).2) = fs (world m)) ∧
  (∀ cert_path key_path password,
     world (load_certificate_from_file cert_path key_path password m).2
       = world m) ∧
  (∀ pdf_path, (verify_signature pdf_path m).2 = m).
Proof.
  split; [|split].
  - intros common_name email organization country.
    destruct (generate_outcomes m common_name email organization country)
      as (ok & m' & -> & Hfs & _). done.
  - intros cert_path key_path password.
    destruct (load_outcomes m cert_path key_path password)
      as (ok & m' & -> & Hworld & _). done.
  - intros pdf_path.
    destruct (verify_signature_returns m pdf_path) as (result & -> & _). done.
Qed.

Lemma after_call_keeps_material m (c : Call) :
  info_has_material (self m) → info_has_material (self (after_call m c)).
Proof.
  intros Hinv. destruct c as [cn em org co|cp kp pw|cp kp pw|p out txt pos|p];
    simpl.
  - destruct (generate_outcomes m cn em org co)
      as (ok & m' & -> & _ & _ & Hok). simpl.
    destruct ok.
    + destruct Hok as (key & cert & _ & ->). by right.
    + destruct Hok as (Hcert & Hinfo & Hkey). unfold info_has_material.
      rewrite Hcert, Hinfo. destruct Hinv as [?|[? ?]]; [by left|right].
      split; [done|]. destruct Hkey as [->|(key & _ & ->)]; done.
  - destruct (load_outcomes m cp kp pw) as (ok & m' & -> & _ & Hok). simpl.
    destruct ok.
    + destruct Hok as (? & cert & ? & key & _ & _ & _ & _ & ->). by right.
    + destruct Hok as (Hkey & Hinfo & Hcert). unfold info_has_material.
      rewrite Hkey, Hinfo. destruct Hinv as [?|[? ?]]; [by left|right].
      split; [|done]. destruct Hcert as [->|(? & cert & _ & _ & ->)]; done.
  - destruct (save_outcomes m cp kp pw) as (ok & m' & -> & Hself & _).
    simpl. by rewrite Hself.
  - destruct (sign_outcomes m p out txt pos) as (ok & m' & -> & Hself & _).
    simpl. by rewrite Hself.
  - by destruct (verify_signature_returns m p) as (result & -> & _).
Qed.

(** X17. In every session (a new signer and any calls of its five public
    methods, whatever they return), a SignatureInfo is held only together
    with a certificate and a private key: [get_certificate_info] is the
    SignatureInfo held, and when it is not empty the certificate is
    loaded. *)
Theorem session_info_only_with_certificate (w : World) (calls : list Call) :
  get_certificate_info (self (session w calls))
    = signature_info (self (session w calls)) ∧
  (signature_info (self (session w calls)) = ∅ ∨
   is_certificate_loaded (self (session w calls)) = true).
Proof.
  assert (info_has_material (self (session w calls))) as Hinv.
  { unfold session.
    assert (info_has_material (self (mkMem (L:=L) __init__ w))) as Hinit
      by (by left).
    revert Hinit. generalize (mkMem (L:=L) __init__ w).
    induction calls as [|c calls IH]; intros m Hm; [done|].
    simpl. by apply IH, after_call_keeps_material. }
  unfold get_certificate_info, is_certificate_loaded.
  destruct Hinv as [Hempty|[Hcert Hkey]].
  - split; [|by left]. by destruct (certificate _).
  - split; [by destruct (certificate _)|]. right.
    by apply bool_decide_eq_true_2.
Qed.

(** X18. A successful [save_certificate] to two distinct paths, then
    [load_certificate_from_file] of them with the same password (with
    none, when the password was empty: an empty password leaves the key
    unencrypted), succeeds and holds the very certificate and key saved. *)
Theorem save_then_load_restores_material (laws : LibLaws L) m m1 cert_path
    key_path password (prior : PDFSigner L) :
  cert_path ≠ key_path →
  save_certificate cert_path key_path password m = (Ret true, m1) →
  ∃ m2,
    load_certificate_from_file cert_path key_path
      (if truthy_bytes password then password else None)
      (mkMem prior (world m1)) = (Ret true, m2) ∧
    certificate (self m2) = certificate (self m) ∧
    private_key (self m2) = private_key (self m).
Proof.
  intros Hpaths Hsave.
  destruct (save_true _ _ _ _ _ Hsave)
    as (cert & key & key_data & Hcert & Hkey & Hbytes & Hfs).
  assert (load_pem_private_key key_data
            (if truthy_bytes password then password else None) = Ret key)
    as Hload.
  { unfold encryption_of in Hbytes.
    destruct password as [[|b pw]|]; simpl in *.
    - by apply key_pem_load_plain.
    - by apply key_pem_load_encrypted.
    - by apply key_pem_load_plain. }
  destruct (load_steps (mkMem prior (world m1)) cert_path key_path
              (if truthy_bytes password then password else None)
              (cert_public_bytes cert) cert key_data key)
    as (m2 & Hrun & Hkey2 & Hcert2 & _).
  { simpl. rewrite Hfs. do 2 rewrite lookup_insert_ne by congruence.
    apply lookup_insert_eq. }
  { apply cert_pem_load. }
  { simpl. rewrite Hfs. apply lookup_insert_eq. }
  { exact Hload. }
  exists m2. by rewrite Hcert, Hkey.
Qed.

(** X19. What a successful generate or load holds does not depend on what
    the signer held before: key, certificate and SignatureInfo are
    replaced together. *)
Theorem success_replaces_prior_state (w : World) (me1 me2 : PDFSigner L) :
  (∀ common_name email organization country m1',
     generate_self_signed_certificate common_name email organization country
       (mkMem me1 w) = (Ret true, m1') →
     generate_self_signed_certificate common_name email organization country
       (mkMem me2 w) = (Ret true, m1')) ∧
  (∀ cert_path key_path password m1',
     load_certificate_from_file cert_path key_path password (mkMem me1 w)
       = (Ret true, m1') →
     load_certificate_from_file cert_path key_path password (mkMem me2 w)
       = (Ret true, m1')).
Proof.
  split.
  - intros common_name email organization country m1'.
    unfold generate_self_signed_certificate. run_body.
    destruct (rsa_generate_private_key _); simpl; [|done].
    destruct (x509_NameAttribute COMMON_NAME _); simpl; [|done].
    destruct (x509_NameAttribute COUNTRY_NAME _); simpl; [|done].
    destruct (truthy_str email);
      [destruct (x509_NameAttribute EMAIL_ADDRESS _)|]; simpl; try done;
      (destruct (truthy_str organization);
       [destruct (x509_NameAttribute ORGANIZATION_NAME _)|]); simpl;
      try done;
      (destruct (replace_year _ _); simpl; [|done]);
      (destruct (x509_build_and_sign _ _ _ _ _); simpl; [|done]);
      done.
  - intros cert_path key_path password m1'.
    unfold load_certificate_from_file. run_body.
    destruct (fs w !! cert_path); simpl; [|done].
    destruct (load_pem_x509_certificate _); simpl; [|done].
    destruct (fs w !! key_path); simpl; [|done].
    by destruct (load_pem_private_key _ _).
Qed.





(** X21. [_get_name_attribute] gives the value of the first attribute with
    the identifier asked for, and "Not specified" when there is none. *)
Theorem get_name_attribute_first_match (name : list (NameOID * string))
    (oid : NameOID) :
  ((∀ a, a ∈ name → a.1 ≠ oid) →
   _get_name_attribute name oid = "Not specified") ∧
  (∀ before value after,
     name = before ++ (oid, value) :: after →
     (∀ a, a ∈ before → a.1 ≠ oid) →
     _get_name_attribute name oid = value).
Proof.
  split.
  - induction name as [|a name IH]; intros Hnone; simpl; [done|].
    rewrite decide_False by (apply Hnone; set_solver).
    apply IH. intros b Hb. apply Hnone. set_solver.
  - intros before value after -> Hbefore.
    induction before as [|a before IH]; simpl.
    + by rewrite decide_True.
    + rewrite decide_False by (apply Hbefore; set_solver).
      apply IH. intros b Hb. apply Hbefore. set_solver.
Qed.

(** X22. A file that is missing, is no PDF, or has no [/Signature] in its
    metadata is reported not signed and not valid, signer and date
    "Unknown", with an error text; the text is "PDF file not found" for a
    missing file and carries the reader's message for a file that is no
    PDF. *)
Theorem verify_unsigned_document m pdf_path :
  (∀ metadata, read_metadata (world m) pdf_path = Some metadata →
               metadata !! "/Signature" = None) →
  ∃ result reason,
    verify_signature pdf_path m = (Ret result, m) ∧
    result !! "is_signed" = Some (VBool false) ∧
    result !! "is_valid" = Some (VBool false) ∧
    result !! "signer" = Some (VStr "Unknown") ∧
    result !! "signature_date" = Some (VStr "Unknown") ∧
    result !! "error" = Some (VStr reason) ∧
    (fs (world m) !! pdf_path = None → reason = "PDF file not found") ∧
    (∀ file e, fs (world m) !! pdf_path = Some file →
               PdfReader file = Raise e →
               reason = "Error verifying signature: " +:+ e).
Proof.
  unfold read_metadata, verify_signature, verify_try. intros Hno.
  destruct (fs (world m) !! pdf_path) as [file|] eqn:Hfile;
    [destruct (PdfReader file) as [[pages [metadata|]]|e] eqn:Hread|];
    simpl in *.
  - rewrite (Hno metadata eq_refl).
    rewrite (bool_decide_eq_false_2 (is_Some None)) by (intros [? [=]]).
    case_bool_decide; do 2 eexists; (split; [reflexivity|]);
      (repeat split; try reflexivity; try done);
      intros file' e' [= <-]; congruence.
  - do 2 eexists. split; [reflexivity|].
    repeat split; try reflexivity; try done.
    intros file' e' [= <-]; congruence.
  - do 2 eexists. split; [reflexivity|].
    repeat split; try reflexivity; try done.
    intros file' e' [= <-]. rewrite Hread. by intros [= <-].
  - do 2 eexists. split; [reflexivity|].
    repeat split; try reflexivity; done.
Qed.

(** X23. The signature embedded by a successful [sign_pdf] is made with
    the key held, over the bytes the source file had before the call, also
    when the output replaces the source. *)
Theorem sign_embeds_signature_of_source (laws : LibLaws L) m m' pdf_path
    output_path signature_text position :
  sign_pdf pdf_path output_path signature_text position m = (Ret true, m') →
  ∃ key file,
    private_key (self m) = Some key ∧
    fs (world m) !! pdf_path = Some file ∧
    read_field (world m') (default pdf_path output_path) "/Signature" =
      Some (b64encode
              (hash_or_empty
                 (key_sign_pss key
                    (entropy (world m) (draws (world m))) file))).
Proof.
  intros Hsign.
  destruct (sign_pdf_true _ _ _ _ _ _ Hsign)
    as (key & file & pages & pdf_writer & output & Hsteps & ->).
  pose proof (signed_output_metadata laws _ _ _ _ _ _ _ _ _ _ Hsteps) as Hmd.
  destruct Hsteps as (Hkey & _ & Hfile & _).
  exists key, file. do 2 (split; [done|]).
  unfold read_field. simpl in *. by rewrite Hmd.
Qed.

(** X24. A source document without pages: a successful [sign_pdf] writes a
    document without pages, so nothing shows the signature but the
    metadata. *)
Theorem sign_document_without_pages (laws : LibLaws L) m m' pdf_path
    output_path signature_text position file info :
  fs (world m) !! pdf_path = Some file →
  PdfReader file = Ret ([], info) →
  sign_pdf pdf_path output_path signature_text position m = (Ret true, m') →
  ∃ output metadata,
    fs (world m') !! default pdf_path output_path = Some output ∧
    PdfReader output = Ret ([], Some metadata) ∧
    is_Some (metadata !! "/Signature").
Proof.
  intros Hfile Hread Hsign.
  destruct (sign_pdf_true _ _ _ _ _ _ Hsign)
    as (key & file' & pages & pdf_writer & output & Hsteps & ->).
  destruct Hsteps as (_ & _ & Hfile' & [info' Hread'] &
                      (signature_buffer & _ & Hadd) & _ & Hwrite).
  rewrite Hfile in Hfile'. injection Hfile' as <-.
  rewrite Hread in Hread'. injection Hread' as <- <-.
  simpl in Hadd. injection Hadd as <-.
  eexists output, _. split; [apply lookup_insert_eq|].
  split; [apply pdf_write_read, Hwrite|].
  unfold sign_metadata. rewrite lookup_insert_eq. eauto.
Qed.

End Further.

(** ** The further properties on concrete cases *)

Section FurtherRuns.
Import RefLib Scenario Cases.

(** X1 on the output of Alice's first signing. *)
Lemma sign_then_verify_witness :
  ∃ result,
    verify_signature "out1.pdf" signed_once = (Ret result, signed_once) ∧
    result !! "is_signed" = Some (VBool true) ∧
    result !! "is_valid" = Some (VBool true) ∧
    result !! "signer" = Some (VStr "Alice") ∧
    result !! "signature_date" = Some (VStr "D:20240101120000") ∧
    result !! "error" = Some VNone.
Proof.
  apply (sign_then_verify ref_laws alice signed_once "in.pdf"
           (Some "out1.pdf") None None).
  vm_compute; reflexivity.
Defined.

(** X3 on a path that is not on the disk. *)
Lemma sign_missing_document_witness :
  sign_pdf "missing.pdf" None None None alice = (Ret false, alice).
Proof.
  apply (sign_missing_document alice "missing.pdf" None None None);
    vm_compute; congruence.
Defined.


(** X5 on the output of Alice's first signing; the source had a title of its
    own. *)
Lemma sign_output_metadata_fields_witness :
  ∃ metadata,
    read_metadata (world signed_once) "out1.pdf" = Some metadata ∧
    dom metadata = list_to_set
      ["/Title"; "/Author"; "/Subject"; "/Creator"; "/Producer"; "/ModDate";
       "/Signature"] ∧
    metadata !! "/Author" = Some "Alice" ∧
    metadata !! "/Title" = Some "Signed PDF - in.pdf" ∧
    metadata !! "/Subject" = Some "Digitally Signed Document".
Proof.
  apply (sign_output_metadata_fields ref_laws alice signed_once "in.pdf"
           (Some "out1.pdf") None None).
  vm_compute; reflexivity.
Defined.

(** X6 on Alice's certificate and first signing. *)
Lemma generate_sign_verify_witness :
  ∃ result,
    verify_signature "out1.pdf" signed_once = (Ret result, signed_once) ∧
    result !! "is_signed" = Some (VBool true) ∧
    result !! "is_valid" = Some (VBool true) ∧
    result !! "signer" = Some (VStr "Alice").
Proof.
  apply (generate_sign_verify ref_laws fresh alice signed_once "Alice"
           (Some "a@x.com") None "US" "in.pdf" (Some "out1.pdf") None None);
    vm_compute; reflexivity.
Defined.

(** X7 on the document with a foreign producer. *)
Lemma verify_other_producer_witness :
  ∃ result,
    verify_signature "foreign.pdf" alice_at_desk
      = (Ret result, alice_at_desk) ∧
    result !! "is_signed" = Some (VBool true) ∧
    result !! "is_valid" = Some (VBool false) ∧
    result !! "error" = Some (VStr "Signature format not recognized") ∧
    result !! "signer" =
      Some (VStr (default "Unknown" (foreign_metadata !! "/Author"))) ∧
    result !! "signature_date" =
      Some (VStr (default "Unknown" (foreign_metadata !! "/ModDate"))).
Proof.
  apply (verify_other_producer alice_at_desk "foreign.pdf" foreign_metadata
           "AAAA").
  - vm_compute; reflexivity.
  - vm_compute; reflexivity.
  - vm_compute; congruence.
Defined.

(** X22 on the text file. *)
Lemma verify_unsigned_document_witness :
  ∃ result reason,
    verify_signature "notes.txt" alice_at_desk = (Ret result, alice_at_desk) ∧
    result !! "is_signed" = Some (VBool false) ∧
    result !! "is_valid" = Some (VBool false) ∧
    result !! "signer" = Some (VStr "Unknown") ∧
    result !! "signature_date" = Some (VStr "Unknown") ∧
    result !! "error" = Some (VStr reason) ∧
    (fs (world alice_at_desk) !! "notes.txt" = None →
     reason = "PDF file not found") ∧
    (∀ file e, fs (world alice_at_desk) !! "notes.txt" = Some file →
               @PdfReader ref_lib file = Raise e →
               reason = "Error verifying signature: " +:+ e).
Proof.
  apply (verify_unsigned_document alice_at_desk "notes.txt").
  intros metadata. vm_compute. congruence.
Defined.

(** X8 on a three-letter country code, which the name attribute refuses. *)
Lemma generate_failure_keeps_certificate_witness :
  let after :=
    (generate_self_signed_certificate "Carol" None None "USA" alice).2 in
  certificate (self after) = certificate (self alice) ∧
  signature_info (self after) = signature_info (self alice) ∧
  fs (world after) = fs (world alice) ∧
  (private_key (self after) = private_key (self alice) ∨
   ∃ key,
     @rsa_generate_private_key ref_lib
       (entropy (world alice) (draws (world alice))) = Ret key ∧
     private_key (self after) = Some key).
Proof.
  apply (generate_failure_keeps_certificate alice
           (generate_self_signed_certificate "Carol" None None "USA" alice).2
           "Carol" None None "USA").
  vm_compute; reflexivity.
Defined.

(** X9 on 29 February 2024. *)
Lemma generate_fails_on_29_february_witness :
  ∃ m',
    generate_self_signed_certificate "Alice" None None "US" leap_day
      = (Ret false, m') ∧
    certificate (self m') = certificate (self leap_day) ∧
    signature_info (self m') = signature_info (self leap_day).
Proof.
  apply (generate_fails_on_29_february leap_day "Alice" None None "US");
    vm_compute; reflexivity.
Defined.

(** X12 on the text file given as certificate. *)
Lemma load_bad_certificate_changes_nothing_witness :
  load_certificate_from_file "notes.txt" "bob.key" (Some secret) alice_at_desk
    = (Ret false, alice_at_desk).
Proof.
  apply (load_bad_certificate_changes_nothing alice_at_desk "notes.txt"
           "bob.key" (Some secret)).
  right. exists notes, "Unable to load PEM file.".
  split; vm_compute; reflexivity.
Defined.

(** X13 on a new signer. *)
Lemma save_without_certificate_witness :
  save_certificate "c.pem" "k.pem" None fresh = (Ret false, fresh).
Proof.
  apply (save_without_certificate fresh "c.pem" "k.pem" None).
  left. reflexivity.
Defined.

(** X14 on a key path that cannot be written. *)
Lemma save_failure_keeps_certificate_file_witness :
  let after := (save_certificate "c.pem" "locked.key" None alice_at_desk).2 in
  fs (world after) !! "c.pem"
    = certificate (self alice_at_desk) ≫= (λ c, Some (ser "C"%byte c)) ∧
  ("locked.key" ∈ readonly (world alice_at_desk) ∧
     fs (world after) !! "locked.key"
       = fs (world alice_at_desk) !! "locked.key"
   ∨ (∃ e, private_bytes (true, 0%N) NoEncryption = Raise e) ∧
     fs (world after) !! "locked.key" = Some []).
Proof.
  apply (save_failure_keeps_certificate_file alice_at_desk
           (save_certificate "c.pem" "locked.key" None alice_at_desk).2
           "c.pem" "locked.key" None
           (mkRefCert [(COMMON_NAME, "Alice"); (COUNTRY_NAME, "US");
                       (EMAIL_ADDRESS, "a@x.com")] 1 0 noon
                      (mkDateTime 2025 1 1 12 0 0))
           (true, 0%N)).
  - vm_compute; reflexivity.
  - vm_compute; reflexivity.
  - vm_compute. set_solver.
  - congruence.
  - vm_compute; reflexivity.
Defined.

(** X18 on an empty password. *)
Lemma save_then_load_restores_material_witness :
  ∃ m2,
    load_certificate_from_file "c.pem" "k.pem" None
      (mkMem __init__
         (world (save_certificate "c.pem" "k.pem" (Some []) alice).2))
      = (Ret true, m2) ∧
    certificate (self m2) = certificate (self alice) ∧
    private_key (self m2) = private_key (self alice).
Proof.
  apply (save_then_load_restores_material ref_laws alice
           (save_certificate "c.pem" "k.pem" (Some []) alice).2
           "c.pem" "k.pem" (Some []) __init__).
  - congruence.
  - vm_compute; reflexivity.
Defined.

(** X23 on Alice's first signing. *)
Lemma sign_embeds_signature_of_source_witness :
  ∃ key file,
    private_key (self alice) = Some key ∧
    fs (world alice) !! "in.pdf" = Some file ∧
    read_field (world signed_once) "out1.pdf" "/Signature" =
      Some (b64encode
              (hash_or_empty
                 (sign_pss key
                    (entropy (world alice) (draws (world alice))) file))).
Proof.
  apply (sign_embeds_signature_of_source ref_laws alice signed_once "in.pdf"
           (Some "out1.pdf") None None).
  vm_compute; reflexivity.
Defined.

(** X24 on the document without pages, signed in place. *)
Lemma sign_document_without_pages_witness :
  ∃ output metadata,
    fs (world (sign_pdf "empty.pdf" None None None alice_at_desk).2)
      !! "empty.pdf" = Some output ∧
    @PdfReader ref_lib output = Ret ([], Some metadata) ∧
    is_Some (metadata !! "/Signature").
Proof.
  apply (sign_document_without_pages ref_laws alice_at_desk
           (sign_pdf "empty.pdf" None None None alice_at_desk).2
           "empty.pdf" None None None no_pages None);
    vm_compute; reflexivity.
Defined.

End FurtherRuns.
